(** * UltraNest: the insertion-order test of [ultranest/ordertest.py]

    A shallow embedding of [infinite_U_zscore] and of the class
    [UniformOrderAccumulator], and the properties of its specification.

    Modelling choices, all taken from the source.

    - Python integers are [Z].  The histogram is a NumPy array of
      [uint32]: a [list Z] whose entries are incremented modulo [2^32];
      its [sum()] is computed by NumPy in [uint64], modulo [2^64].
    - Python floats are IEEE binary64.  The code is written once over an
      interface [PyFloat] of the float operations it uses and read at two
      instances: [binary64], Rocq's primitive floats, which is what the
      program computes, and [exact], the real numbers, which is the
      arithmetic the formulas are meant in.
    - A method mutates [self] and may raise: a method is a function from
      the state before the call to an outcome and the state after it.
      [add] returns [self]; here it returns nothing, the state is the
      result.
    - Memory.  The accumulator is first written for a machine whose
      [np.zeros] always delivers; [Machine] then writes the methods that
      allocate, [__init__], [expand] and [add], over NumPy's [np.zeros],
      which raises for an array too big and when memory runs out.  A
      call that returns on the second is the same call on the first
      ([machine_add_all_returned]).  The conversion of an integer to a
      float never overflows: an integer that large is no array size.
    - [x ** 0.5] is the C library's [pow].  Over the reals it is the
      real power, which is the square root.  In binary64 it is read as
      the correctly rounded square root, which [pow] is at [0], [0.25]
      and [10 / 12], the arguments at which the binary64 values below
      take it; [glibc_pow_0_5] records an argument where it is not. *)

From Stdlib Require Import PrimFloat SpecFloat FloatOps.
From stdpp Require Import base list.
From Stdlib Require Import ZArith Lia Permutation.
From Stdlib Require Import Reals Lra.

Open Scope Z_scope.

(** ** Float arithmetic *)

(** The float operations of [ordertest.py]. *)
Class PyFloat (F : Type) := {
  of_int : Z -> F;          (* the conversion of an integer operand *)
  lit_0_0 : F;              (* the literal [0.0] *)
  lit_0_5 : F;              (* the literal [0.5] *)
  lit_12_0 : F;             (* the literal [12.0] *)
  fadd : F -> F -> F;
  fsub : F -> F -> F;
  fmul : F -> F -> F;
  fdiv : F -> F -> F;       (* NumPy's [/]: the IEEE quotient, never raises *)
  fpow_0_5 : F -> F         (* [x ** 0.5] *)
}.

(** Round-to-nearest-even conversion of an integer to binary64. *)
Definition float_of_Z (z : Z) : PrimFloat.float :=
  FloatOps.SF2Prim
    (SpecFloat.binary_normalize FloatOps.prec FloatOps.emax z 0 false).

(** IEEE binary64, as the program computes.  [x ** 0.5] is read as the
    correctly rounded square root. *)
#[export] Instance binary64 : PyFloat PrimFloat.float := {
  of_int := float_of_Z;
  lit_0_0 := 0%float;
  lit_0_5 := 0.5%float;
  lit_12_0 := 12%float;
  fadd := PrimFloat.add;
  fsub := PrimFloat.sub;
  fmul := PrimFloat.mul;
  fdiv := PrimFloat.div;
  fpow_0_5 := PrimFloat.sqrt
}.

(** [x ** 0.5] over the reals, for [x >= 0]: zero at zero, the real
    power [exp (0.5 * ln x)] above. *)
Definition real_pow_0_5 (x : R) : R :=
  if Rle_dec x 0 then 0%R else Rpower x (1 / 2).

(** Exact real arithmetic. *)
#[export] Instance exact : PyFloat R := {
  of_int := IZR;
  lit_0_0 := 0%R;
  lit_0_5 := (1 / 2)%R;
  lit_12_0 := 12%R;
  fadd := Rplus;
  fsub := Rminus;
  fmul := Rmult;
  fdiv := Rdiv;
  fpow_0_5 := real_pow_0_5
}.

(** ** NumPy arrays of unsigned integers *)

Definition uint32_modulus : Z := 2 ^ 32.
Definition uint64_modulus : Z := 2 ^ 64.

(** [np.zeros(n, dtype=np.uint32)] for [n >= 0]. *)
Definition np_zeros (n : Z) : list Z := replicate (Z.to_nat n) 0.

(** [a.size] *)
Definition size (a : list Z) : Z := Z.of_nat (length a).

(** [a.sum()] of a [uint32] array: accumulated in [uint64]. *)
Definition np_sum (a : list Z) : Z :=
  foldl (fun s c => (s + c) mod uint64_modulus) 0 a.

(** [new[:old.size] = old], for [old.size <= new.size]. *)
Definition assign_prefix (new old : list Z) : list Z :=
  old ++ drop (length old) new.

(** The position an integer index [i] denotes in an array of [n] cells:
    a negative index counts from the end, anything outside is an
    [IndexError]. *)
Definition np_index (n i : Z) : option nat :=
  if (0 <=? i) && (i <? n) then Some (Z.to_nat i)
  else if (- n <=? i) && (i <? 0) then Some (Z.to_nat (n + i))
  else None.

(** ** Exceptions and methods *)

Inductive exn : Type :=
| ValueError_order (rank N : Z)     (* "order %d out of %d invalid" *)
| ValueError_negative_dimensions    (* raised by [np.zeros] *)
| ZeroDivisionError
| IndexError
| ValueError_array_too_big          (* raised by [np.zeros] *)
| MemoryError.                      (* raised by [np.zeros] *)

Inductive outcome (A : Type) : Type :=
| Returned (a : A)
| Raised (e : exn).
Arguments Returned {A} a.
Arguments Raised {A} e.

Section Accumulator.

Context {F : Type} `{PyFloat F}.

(** The attributes of a [UniformOrderAccumulator]. *)
Record UniformOrderAccumulator : Type := mkAcc {
  histogram : list Z;
  U : F
}.

(** A method body: the state of [self] threaded through, with the
    state at the point where an exception was raised. *)
Definition M (A : Type) : Type :=
  UniformOrderAccumulator -> outcome A * UniformOrderAccumulator.

Definition ret {A} (a : A) : M A := fun self => (Returned a, self).
Definition raise {A} (e : exn) : M A := fun self => (Raised e, self).
Definition bind {A B} (c : M A) (k : A -> M B) : M B :=
  fun self =>
    match c self with
    | (Returned a, self') => k a self'
    | (Raised e, self') => (Raised e, self')
    end.
Definition get_histogram : M (list Z) := fun self => (Returned (histogram self), self).
Definition set_histogram (h : list Z) : M unit :=
  fun self => (Returned tt, mkAcc h (U self)).
Definition get_U : M F := fun self => (Returned (U self), self).
Definition set_U (u : F) : M unit :=
  fun self => (Returned tt, mkAcc (histogram self) u).

Declare Scope py_scope.
Delimit Scope py_scope with py.
Notation "x <- c ;; k" := (bind c (fun x => k))
  (at level 100, c at next level, right associativity) : py_scope.
Notation "c ;; k" := (bind c (fun _ => k))
  (at level 100, right associativity) : py_scope.
Local Open Scope py_scope.

(** [float / int] in Python: a zero divisor raises. *)
Definition py_truediv (x : F) (n : Z) : M F :=
  if n =? 0 then raise ZeroDivisionError else ret (fdiv x (of_int n)).

(** [a[i] += 1] on a [uint32] array. *)
Definition iadd_item (a : list Z) (i : Z) : outcome (list Z) :=
  match np_index (size a) i with
  | Some k =>
      match a !! k with
      | Some c => Returned (<[k := (c + 1) mod uint32_modulus]> a)
      | None => Raised IndexError
      end
  | None => Raised IndexError
  end.

(** [UniformOrderAccumulator(N)] *)
Definition __init__ (N : Z) : outcome UniformOrderAccumulator :=
  if N <? 0 then Raised ValueError_negative_dimensions
  else Returned (mkAcc (np_zeros N) lit_0_0).

(** [reset]: [self.histogram[:] = 0; self.U = 0.0] *)
Definition reset : M unit :=
  h <- get_histogram ;;
  set_histogram (map (fun _ => 0) h) ;;
  set_U lit_0_0.

(** [expand] *)
Definition expand (N : Z) : M unit :=
  old_hist <- get_histogram ;;
  if N >? size old_hist
  then set_histogram (assign_prefix (np_zeros N) old_hist)
  else ret tt.

(** [add] *)
Definition add (rank N : Z) : M unit :=
  if negb ((0 <=? rank) && (rank <=? N))
  then raise (ValueError_order rank N)
  else
    h <- get_histogram ;;
    (if N >=? size h then expand (N + 1) else ret tt) ;;
    u <- get_U ;;
    q <- py_truediv (fadd (of_int rank) lit_0_5) N ;;
    set_U (fadd u q) ;;
    h <- get_histogram ;;
    match iadd_item h rank with
    | Returned h' => set_histogram h'
    | Raised e => raise e
    end.

(** [__len__] *)
Definition __len__ (self : UniformOrderAccumulator) : Z :=
  np_sum (histogram self).

(** [zscore] *)
Definition zscore (self : UniformOrderAccumulator) : F :=
  let N := np_sum (histogram self) in
  if N =? 0 then lit_0_0
  else
    let m_U := fmul (of_int N) lit_0_5 in
    let sigma_U_corr := fpow_0_5 (fdiv (of_int N) lit_12_0) in
    fdiv (fsub (U self) m_U) sigma_U_corr.

(** [a.sum()] of a float array, added from left to right.  NumPy adds
    long arrays pairwise; in exact arithmetic the order is immaterial,
    and in binary64 this sum is only ever taken of the empty array. *)
Definition np_sum_float (a : list F) : F := foldl fadd lit_0_0 a.

(** [infinite_U_zscore] *)
Definition infinite_U_zscore (sample : list F) (B : F) : F :=
  let N := Z.of_nat (length sample) in
  fdiv (fsub (np_sum_float (map (fun s => fadd s lit_0_5) sample))
             (fmul (fmul (of_int N) B) lit_0_5))
       (fmul (fpow_0_5 (fdiv (of_int N) lit_12_0)) B).

(** Replaying observations through [add], in order, until one raises. *)
Fixpoint add_all (obs : list (Z * Z)) : M unit :=
  match obs with
  | [] => ret tt
  | (rank, N) :: rest => add rank N ;; add_all rest
  end.

(** The error the specification calls [InvalidRank]: the [ValueError]
    that [add] raises. *)
Definition is_InvalidRank {A} (o : outcome A) : bool :=
  match o with
  | Raised (ValueError_order _ _) => true
  | _ => false
  end.

(** *** Auxiliary readings of a successful [add] *)

(** An observation [(rank, N)] that [add] accepts. *)
Definition valid_obs (o : Z * Z) : Prop := 0 <= fst o <= snd o /\ 1 <= snd o.

(** The histogram after the growth step of [add rank N]. *)
Definition grown (N : Z) (h : list Z) : list Z :=
  if N >=? size h then assign_prefix (np_zeros (N + 1)) h else h.

(** The count stored at position [i], zero outside the array. *)
Definition count_at (h : list Z) (i : nat) : Z := default 0 (h !! i).

(** The histogram after [h[rank] += 1], for [0 <= rank < size h]. *)
Definition bumped (rank : Z) (h : list Z) : list Z :=
  <[Z.to_nat rank := (count_at h (Z.to_nat rank) + 1) mod uint32_modulus]> h.

(** The term [(rank + 0.5) / N] that an observation adds to [U]. *)
Definition U_term (o : Z * Z) : F :=
  fdiv (fadd (of_int (fst o)) lit_0_5) (of_int (snd o)).

Definition hist_after (obs : list (Z * Z)) (h : list Z) : list Z :=
  foldl (fun h o => bumped (fst o) (grown (snd o) h)) h obs.

Definition U_after (obs : list (Z * Z)) (u : F) : F :=
  foldl (fun u o => fadd u (U_term o)) u obs.

(** The sum of the counts as a mathematical integer. *)
Definition sum_counts (h : list Z) : Z := foldr Z.add 0 h.

End Accumulator.

Arguments UniformOrderAccumulator F : clear implicits.
Arguments M F A : clear implicits.

(** ** The accumulator on a machine that can refuse memory

    Above, [np.zeros] always delivers.  Here it is NumPy's: it raises a
    [ValueError] for a negative size and for an array of [2^61] cells or
    more (4 bytes each, past the largest size in bytes, [2^63 - 1]), and
    a [MemoryError] when the machine does not grant the cells.  The
    methods that allocate, [__init__], [expand] and through it [add],
    are written again over it; [reset], [zscore] and [__len__] allocate
    nothing. *)

(** The least number of [uint32] cells that NumPy refuses for its size. *)
Definition numpy_max_cells : Z := 2 ^ 61.

Module Machine.
Section WithAllocator.

Context {F : Type} `{PyFloat F}.

Declare Scope py_scope.

(** [available n]: whether the machine grants an array of [n] cells. *)
Variable available : Z -> bool.

Notation "x <- c ;; k" := (bind c (fun x => k))
  (at level 100, c at next level, right associativity) : py_scope.
Notation "c ;; k" := (bind c (fun _ => k))
  (at level 100, right associativity) : py_scope.
Local Open Scope py_scope.

(** [np.zeros(n, dtype=np.uint32)] *)
Definition np_zeros (n : Z) : outcome (list Z) :=
  if n <? 0 then Raised ValueError_negative_dimensions
  else if numpy_max_cells <=? n then Raised ValueError_array_too_big
  else if available n then Returned (replicate (Z.to_nat n) 0)
  else Raised MemoryError.

(** [UniformOrderAccumulator(N)] *)
Definition __init__ (N : Z) : outcome (UniformOrderAccumulator F) :=
  match np_zeros N with
  | Returned h => Returned (mkAcc h lit_0_0)
  | Raised e => Raised e
  end.

(** [expand]: the new array is bound to [self.histogram] only once
    [np.zeros] has returned. *)
Definition expand (N : Z) : M F unit :=
  old_hist <- get_histogram ;;
  if N >? size old_hist
  then match np_zeros N with
       | Returned new => set_histogram (assign_prefix new old_hist)
       | Raised e => raise e
       end
  else ret tt.

(** [add] *)
Definition add (rank N : Z) : M F unit :=
  if negb ((0 <=? rank) && (rank <=? N))
  then raise (ValueError_order rank N)
  else
    h <- get_histogram ;;
    (if N >=? size h then expand (N + 1) else ret tt) ;;
    u <- get_U ;;
    q <- py_truediv (fadd (of_int rank) lit_0_5) N ;;
    set_U (fadd u q) ;;
    h <- get_histogram ;;
    match iadd_item h rank with
    | Returned h' => set_histogram h'
    | Raised e => raise e
    end.

(** Replaying observations through [add], in order, until one raises. *)
Fixpoint add_all (obs : list (Z * Z)) : M F unit :=
  match obs with
  | [] => ret tt
  | (rank, N) :: rest => add rank N ;; add_all rest
  end.

End WithAllocator.
End Machine.

(** A machine that grants every array NumPy accepts. *)
Definition generous : Z -> bool := fun _ => true.

(** A machine that grants arrays of up to a thousand cells. *)
Definition small_machine : Z -> bool := fun n => n <=? 1000.

(** ** The platform's power function

    In binary64 [x ** 0.5] is the [pow] of the C library, which need not
    be the correctly rounded square root. *)

(** Binary64 with a given function for [x ** 0.5]. *)
Definition binary64_with_pow (pow_0_5 : float -> float) : PyFloat float := {|
  of_int := float_of_Z;
  lit_0_0 := 0%float;
  lit_0_5 := 0.5%float;
  lit_12_0 := 12%float;
  fadd := PrimFloat.add;
  fsub := PrimFloat.sub;
  fmul := PrimFloat.mul;
  fdiv := PrimFloat.div;
  fpow_0_5 := pow_0_5
|}.

(** [pow(x, 0.5)] of glibc 2.36 on x86-64 at [x = 7513 / 12.0], where it
    returns [0x1.9058b54f6afbap+4], one unit in the last place below the
    square root; the square root stands for it at every other argument. *)
Definition glibc_pow_0_5 (x : float) : float :=
  if PrimFloat.eqb x 0x1.390aaaaaaaaabp+9
  then 0x1.9058b54f6afbap+4%float
  else PrimFloat.sqrt x.

(** ** Sums in exact arithmetic *)

(** The sum of the terms [(rank + 0.5) / N] of a list of observations. *)
Definition sum_terms (obs : list (Z * Z)) : R :=
  foldr (fun o acc => (U_term (F:=R) o + acc)%R) 0%R obs.



(** ** Inputs of the examples *)

(** A new accumulator of capacity [n]. *)
Definition empty_accumulator {F} `{PyFloat F} (n : Z) : UniformOrderAccumulator F :=
  mkAcc (np_zeros n) lit_0_0.

(** Three observations, in two orders. *)
Definition obs_small_first : list (Z * Z) := [(0, 3); (0, 1); (0, 1)].

(** The observation [(rank, 1)] made [2^32] times. *)
Definition obs_wrapping (rank : Z) : list (Z * Z) :=
  replicate (Z.to_nat 4294967296) (rank, 1).

(** Rank 9 out of 10, ten times. *)
Definition obs_skewed : list (Z * Z) := replicate 10 (9, 10).

(** ** Further readings of the state *)

(** The counts of a [uint32] array lie in [[0, 2^32)]. *)
Definition uint32_array (h : list Z) : Prop :=
  Forall (fun c => 0 <= c < uint32_modulus) h.

(** How many observations of a list have their rank at position [i]. *)
Definition occurrences (i : nat) (obs : list (Z * Z)) : Z :=
  foldr (fun o k => if decide (Z.to_nat (fst o) = i) then 1 + k else k) 0 obs.



(** An observation whose rank lies below its scale. *)
Definition below_scale (o : Z * Z) : Prop := 0 <= fst o < snd o.

(** The observation counted from the other end of its scale. *)
Definition mirror (o : Z * Z) : Z * Z := (snd o - 1 - fst o, snd o).

(** ** Inputs of the limits *)

(** Every rank [s .. s + m - 1], [k] times each, out of [M]. *)
Fixpoint ranks_each (k : nat) (M : Z) (s m : nat) : list (Z * Z) :=
  match m with
  | O => []
  | S m' => replicate k (Z.of_nat s, M) ++ ranks_each k M (S s) m'
  end.

(** [2^64] observations out of [2^32 + 1], no rank more than
    [2^32 - 1] times: the ranks [0 .. 2^32], [2^32 - 1] times each, and
    the rank [2^32 + 1] once. *)
Definition obs_filling : list (Z * Z) :=
  ranks_each (Z.to_nat 4294967295) 4294967297 0 (Z.to_nat 4294967297)
  ++ [(4294967297, 4294967297)].

(** A histogram whose counts add up to [2^64]: [2^32 + 1] counts of
    [2^32 - 1], and a count of 1. *)
Definition hist_full : list Z :=
  replicate (Z.to_nat 4294967297) 4294967295 ++ [1].


(** * Properties *)

(** Over the reals [x ** 0.5] is the square root. *)
Lemma real_pow_0_5_sqrt (x : R) : real_pow_0_5 x = sqrt x.
Proof.
  unfold real_pow_0_5. destruct (Rle_dec x 0) as [Hle|Hgt].
  - symmetry. by apply sqrt_neg_0.
  - replace (1 / 2)%R with (/ 2)%R by lra. apply Rpower_sqrt. lra.
Qed.

Section AccumulatorFacts.

Context {F : Type} `{PyFloat F}.
Implicit Types (self : UniformOrderAccumulator F) (h : list Z).

Lemma size_nonneg h : 0 <= size h.
Proof. unfold size. lia. Qed.

Lemma np_zeros_length n : length (np_zeros n) = Z.to_nat n.
Proof. unfold np_zeros. apply length_replicate. Qed.

Lemma assign_prefix_zeros n h :
  assign_prefix (np_zeros n) h = h ++ replicate (Z.to_nat n - length h)%nat 0.
Proof. unfold assign_prefix, np_zeros. by rewrite drop_replicate. Qed.

Lemma grown_eq N h :
  grown N h = h ++ replicate (Z.to_nat (N + 1) - length h)%nat 0.
Proof.
  unfold grown. destruct (Z.geb_spec N (size h)) as [Hge|Hlt].
  - apply assign_prefix_zeros.
  - unfold size in Hlt.
    replace (Z.to_nat (N + 1) - length h)%nat with 0%nat by lia.
    simpl. by rewrite app_nil_r.
Qed.

Lemma grown_length N h :
  size (grown N h) = Z.max (size h) (N + 1).
Proof.
  rewrite grown_eq. unfold size. rewrite length_app, length_replicate. lia.
Qed.

Lemma length_grown_nat N h :
  length (grown N h) = Nat.max (length h) (Z.to_nat (N + 1)).
Proof. rewrite grown_eq, length_app, length_replicate. lia. Qed.

Lemma bumped_length rank h : size (bumped rank h) = size h.
Proof. unfold bumped, size. by rewrite length_insert. Qed.

Lemma np_index_in_range n i :
  0 <= i < n -> np_index n i = Some (Z.to_nat i).
Proof.
  intros Hi. unfold np_index.
  destruct (Z.leb_spec 0 i); [|lia]. destruct (Z.ltb_spec i n); [|lia]. done.
Qed.

Lemma iadd_item_in_range h rank :
  0 <= rank < size h -> iadd_item h rank = Returned (bumped rank h).
Proof.
  intros Hr. unfold iadd_item. rewrite np_index_in_range by done.
  unfold bumped, count_at.
  destruct (lookup_lt_is_Some_2 h (Z.to_nat rank)) as [c ->].
  - unfold size in Hr. lia.
  - done.
Qed.

(** What [add] does with an observation that passes its check and has a
    non-zero scale. *)
Lemma add_accepted self rank N :
  0 <= rank <= N -> N <> 0 ->
  add rank N self =
    (Returned tt,
     mkAcc (bumped rank (grown N (histogram self)))
           (fadd (U self) (U_term (rank, N)))).
Proof.
  intros Hr HN. unfold add.
  destruct (Z.leb_spec 0 rank); [|lia]. destruct (Z.leb_spec rank N); [|lia].
  cbn [andb negb]. unfold bind at 1. cbn [get_histogram].
  assert (Hgrow :
    (if N >=? size (histogram self) then expand (N + 1) else ret tt) self =
    (Returned tt, mkAcc (grown N (histogram self)) (U self))).
  { unfold grown, expand, bind, get_histogram, set_histogram, ret.
    destruct (Z.geb_spec N (size (histogram self))).
    - destruct (Z.gtb_spec (N + 1) (size (histogram self))); [done|lia].
    - by destruct self. }
  unfold bind at 1. rewrite Hgrow.
  unfold bind, get_U, py_truediv, set_U, get_histogram.
  destruct (Z.eqb_spec N 0); [done|]. cbn [ret U histogram].
  rewrite iadd_item_in_range.
  - done.
  - rewrite grown_length. lia.
Qed.

(** [add] in full: the rank check, then the growth, then the division,
    and only then the two updates. *)
Lemma add_unfold self rank N :
  add rank N self =
    if negb ((0 <=? rank) && (rank <=? N))
    then (Raised (ValueError_order rank N), self)
    else if N =? 0
    then (Raised ZeroDivisionError, mkAcc (grown N (histogram self)) (U self))
    else (Returned tt,
          mkAcc (bumped rank (grown N (histogram self)))
                (fadd (U self) (U_term (rank, N)))).
Proof.
  destruct (negb ((0 <=? rank) && (rank <=? N))) eqn:Hchk.
  - unfold add. by rewrite Hchk.
  - destruct (Z.eqb_spec N 0) as [->|HN].
    + unfold add. rewrite Hchk.
      unfold bind, get_histogram, get_U, py_truediv, raise. cbn [Z.eqb].
      unfold grown, expand, bind, get_histogram, set_histogram, ret.
      destruct (Z.geb_spec 0 (size (histogram self))).
      * destruct (Z.gtb_spec (0 + 1) (size (histogram self))); [done|lia].
      * by destruct self.
    + apply add_accepted; [|done].
      apply negb_false_iff, andb_true_iff in Hchk. lia.
Qed.

Lemma add_all_valid obs : forall self,
  Forall valid_obs obs ->
  add_all obs self =
    (Returned tt,
     mkAcc (hist_after obs (histogram self)) (U_after obs (U self))).
Proof.
  induction obs as [|[rank N] obs IH]; intros self Hv.
  - by destruct self.
  - apply Forall_cons in Hv as [[Hr HN] Hv]. cbn [fst snd] in Hr, HN.
    cbn [add_all]. unfold bind.
    rewrite add_accepted by lia. rewrite IH by done. done.
Qed.

(** *** Sums of counts *)

Lemma sum_counts_app h1 h2 :
  sum_counts (h1 ++ h2) = sum_counts h1 + sum_counts h2.
Proof. unfold sum_counts. induction h1 as [|c h1 IH]; simpl; lia. Qed.

Lemma sum_counts_zeros n : sum_counts (replicate n 0) = 0.
Proof. unfold sum_counts. induction n as [|n IH]; simpl; lia. Qed.

Lemma sum_counts_insert h : forall k c v,
  h !! k = Some c -> sum_counts (<[k := v]> h) = sum_counts h - c + v.
Proof.
  unfold sum_counts. induction h as [|x h IH]; intros [|k] c v Hk; try done.
  - injection Hk as ->. simpl. lia.
  - simpl in *. rewrite (IH _ _ _ Hk). lia.
Qed.

Lemma sum_counts_nonneg h : Forall (Z.le 0) h -> 0 <= sum_counts h.
Proof. unfold sum_counts. induction 1; simpl; lia. Qed.

Lemma count_le_sum h : forall k c,
  Forall (Z.le 0) h -> h !! k = Some c -> 0 <= c <= sum_counts h.
Proof.
  induction h as [|x h IH]; intros [|k] c Hnn Hk; try done;
    apply Forall_cons in Hnn as [Hx Hnn].
  - injection Hk as ->. pose proof (sum_counts_nonneg h Hnn).
    unfold sum_counts in *. simpl. lia.
  - simpl in Hk. pose proof (IH _ _ Hnn Hk). unfold sum_counts in *. simpl. lia.
Qed.

(** NumPy's [uint64] sum is the mathematical sum modulo [2^64]. *)
Lemma np_sum_mod h : np_sum h = sum_counts h mod uint64_modulus.
Proof.
  unfold np_sum.
  assert (Hgen : forall a,
    foldl (fun s c => (s + c) mod uint64_modulus) (a mod uint64_modulus) h
    = (a + sum_counts h) mod uint64_modulus).
  { unfold sum_counts. induction h as [|c h IH]; intros a; simpl.
    - by rewrite Z.add_0_r.
    - rewrite Zplus_mod_idemp_l, IH. f_equal. lia. }
  apply (Hgen 0).
Qed.

Lemma np_sum_small h :
  0 <= sum_counts h < uint64_modulus -> np_sum h = sum_counts h.
Proof. intros Hs. rewrite np_sum_mod. by apply Z.mod_small. Qed.

Lemma sum_counts_grown N h : sum_counts (grown N h) = sum_counts h.
Proof. rewrite grown_eq, sum_counts_app, sum_counts_zeros. lia. Qed.

Lemma grown_nonneg N h : Forall (Z.le 0) h -> Forall (Z.le 0) (grown N h).
Proof.
  intros Hnn. rewrite grown_eq. apply Forall_app. split; [done|].
  apply Forall_replicate. lia.
Qed.

Lemma bumped_nonneg rank h : Forall (Z.le 0) h -> Forall (Z.le 0) (bumped rank h).
Proof.
  intros Hnn. unfold bumped. apply Forall_insert; [done|].
  apply Z.mod_pos_bound. unfold uint32_modulus. lia.
Qed.

Lemma sum_counts_bumped rank h :
  0 <= rank < size h -> Forall (Z.le 0) h ->
  sum_counts h + 1 < uint32_modulus ->
  sum_counts (bumped rank h) = sum_counts h + 1.
Proof.
  intros Hr Hnn Hlt. unfold bumped, count_at.
  destruct (lookup_lt_is_Some_2 h (Z.to_nat rank)) as [c Hc].
  { unfold size in Hr. lia. }
  rewrite Hc. simpl.
  pose proof (count_le_sum _ _ _ Hnn Hc).
  rewrite (sum_counts_insert _ _ c) by done.
  rewrite Z.mod_small by lia. lia.
Qed.

(** As long as fewer than [2^32] observations are recorded no counter
    wraps, and the counts add up to the number of observations. *)
Lemma hist_after_sum obs : forall h,
  Forall valid_obs obs -> Forall (Z.le 0) h ->
  sum_counts h + Z.of_nat (length obs) < uint32_modulus ->
  Forall (Z.le 0) (hist_after obs h) /\
  sum_counts (hist_after obs h) = sum_counts h + Z.of_nat (length obs).
Proof.
  induction obs as [|[rank N] obs IH]; intros h Hv Hnn Hlt.
  - change (hist_after [] h) with h. split; [done|]. cbn [length]. lia.
  - apply Forall_cons in Hv as [[Hr HN] Hv]. cbn [fst snd] in Hr, HN.
    cbn [length] in Hlt.
    change (hist_after ((rank, N) :: obs) h)
      with (hist_after obs (bumped rank (grown N h))).
    pose proof (grown_nonneg N h Hnn) as Hnn'.
    assert (Hs : sum_counts (bumped rank (grown N h)) = sum_counts h + 1).
    { rewrite sum_counts_bumped, sum_counts_grown; try done.
      - rewrite grown_length. lia.
      - rewrite sum_counts_grown. lia. }
    destruct (IH (bumped rank (grown N h))) as [Hnn'' Hsum]; try done.
    + by apply bumped_nonneg.
    + lia.
    + split; [done|]. cbn [length]. lia.
Qed.

(** From a state without observations, fewer than [2^32] valid
    observations put their number in the total. *)
Lemma np_sum_after_zeros obs k :
  Forall valid_obs obs -> Z.of_nat (length obs) < uint32_modulus ->
  np_sum (hist_after obs (replicate k 0)) = Z.of_nat (length obs).
Proof.
  intros Hv Hlt.
  destruct (hist_after_sum obs (replicate k 0)) as [Hnn Hsum]; try done.
  - apply Forall_replicate. lia.
  - rewrite sum_counts_zeros. lia.
  - rewrite sum_counts_zeros in Hsum.
    rewrite np_sum_small; [lia|].
    unfold uint32_modulus, uint64_modulus in *. lia.
Qed.

(** *** The queries *)

(** *** The rank check of [add] *)

(** C10: [add 0 0] passes the rank check and raises [ZeroDivisionError],
    not the invalid-rank error; by then an accumulator of capacity 0 has
    been grown to capacity 1, while [U] and every count are as before. *)
Theorem add_zero_scale self :
  fst (add 0 0 self) = Raised ZeroDivisionError
  /\ is_InvalidRank (fst (add 0 0 self)) = false
  /\ histogram (snd (add 0 0 self)) =
       (if size (histogram self) =? 0 then [0] else histogram self)
  /\ size (histogram (snd (add 0 0 self))) = Z.max 1 (size (histogram self))
  /\ U (snd (add 0 0 self)) = U self
  /\ __len__ (snd (add 0 0 self)) = __len__ self
  /\ (forall i, count_at (histogram (snd (add 0 0 self))) i
                = count_at (histogram self) i).
Proof.
  rewrite add_unfold. cbn [Z.leb Z.compare andb negb Z.eqb fst snd histogram U].
  assert (Hg : grown 0 (histogram self) =
               if size (histogram self) =? 0 then [0] else histogram self).
  { unfold grown. pose proof (size_nonneg (histogram self)).
    destruct (Z.geb_spec 0 (size (histogram self)));
      destruct (Z.eqb_spec (size (histogram self)) 0); try lia; [|done].
    unfold size in *. destruct (histogram self); [done|simpl in *; lia]. }
  rewrite Hg. repeat split; try done.
  - rewrite <- Hg, grown_length. lia.
  - unfold __len__. cbn [histogram].
    destruct (Z.eqb_spec (size (histogram self)) 0) as [Hz|]; [|done].
    unfold size in Hz. by destruct (histogram self).
  - intros i. destruct (Z.eqb_spec (size (histogram self)) 0) as [Hz|]; [|done].
    unfold size in Hz. destruct (histogram self); [|done].
    by destruct i as [|[|i]].
Qed.

(** *** [reset] *)

Lemma map_zero_replicate h : map (fun _ => 0) h = replicate (length h) 0.
Proof. induction h as [|c h IH]; simpl; by f_equal. Qed.

Lemma np_sum_zeros n : np_sum (replicate n 0) = 0.
Proof. rewrite np_sum_mod, sum_counts_zeros. done. Qed.

Lemma reset_unfold self :
  reset self = (Returned tt, mkAcc (replicate (length (histogram self)) 0) lit_0_0).
Proof.
  unfold reset, bind, get_histogram, set_histogram, set_U. cbn [histogram U].
  by rewrite map_zero_replicate.
Qed.

(** C6: [reset] returns in every state, sets every count and [U] to
    zero and keeps the capacity; the state it leaves is the state of a
    new accumulator of that capacity, so [zscore] is [0.0] and the length
    is [0]. *)
Theorem reset_fresh self :
  fst (reset self) = Returned tt
  /\ histogram (snd (reset self)) = replicate (length (histogram self)) 0
  /\ U (snd (reset self)) = lit_0_0
  /\ size (histogram (snd (reset self))) = size (histogram self)
  /\ __init__ (size (histogram self)) = Returned (snd (reset self))
  /\ zscore (snd (reset self)) = lit_0_0
  /\ __len__ (snd (reset self)) = 0.
Proof.
  rewrite reset_unfold. cbn [fst snd histogram U].
  repeat split.
  - unfold size. by rewrite length_replicate.
  - unfold __init__. pose proof (size_nonneg (histogram self)).
    destruct (Z.ltb_spec (size (histogram self)) 0); [lia|].
    unfold np_zeros, size. by rewrite Nat2Z.id.
  - unfold zscore. cbn [histogram]. by rewrite np_sum_zeros.
  - unfold __len__. cbn [histogram]. apply np_sum_zeros.
Qed.

(** *** The length *)

(** *** Capacity *)

Lemma expand_unfold self N :
  expand N self =
    (Returned tt,
     if N >? size (histogram self)
     then mkAcc (histogram self
                 ++ replicate (Z.to_nat N - length (histogram self))%nat 0)
                (U self)
     else self).
Proof.
  unfold expand, bind, get_histogram, set_histogram, ret.
  destruct (N >? size (histogram self)); [|done].
  by rewrite assign_prefix_zeros.
Qed.

Lemma lookup_grown N h i :
  (i < length h)%nat -> grown N h !! i = h !! i.
Proof. intros Hi. rewrite grown_eq. by apply lookup_app_l. Qed.

(** C7: an [add rank N] that returns, called with [N] at least the
    capacity, leaves capacity [N + 1]; the new array holds the old counts
    at their positions, the count of [rank] one higher (modulo [2^32]);
    [expand] keeps every old count; and [add] (returning or raising),
    [expand] and [reset] never lower the capacity. *)
Theorem capacity_growth self rank N :
  size (histogram self) <= N ->
  fst (add rank N self) = Returned tt ->
  size (histogram (snd (add rank N self))) = N + 1
  /\ (forall i, (i < length (histogram self))%nat ->
        histogram (snd (add rank N self)) !! i =
          if decide (i = Z.to_nat rank)
          then Some ((count_at (histogram self) i + 1) mod uint32_modulus)
          else histogram self !! i)
  /\ (forall M i, (i < length (histogram self))%nat ->
        histogram (snd (expand M self)) !! i = histogram self !! i)
  /\ (forall r n, size (histogram self) <= size (histogram (snd (add r n self))))
  /\ (forall M, size (histogram self) <= size (histogram (snd (expand M self))))
  /\ size (histogram (snd (reset self))) = size (histogram self).
Proof.
  intros Hcap Hret. split; [|split; [|split; [|split; [|split]]]].
  - revert Hret. rewrite add_unfold.
    destruct (negb ((0 <=? rank) && (rank <=? N))); [done|].
    destruct (N =? 0); [done|]. intros _. cbn [snd histogram].
    rewrite bumped_length, grown_length. lia.
  - intros i Hi. revert Hret. rewrite add_unfold.
    destruct (negb ((0 <=? rank) && (rank <=? N))) eqn:Hchk; [done|].
    destruct (N =? 0); [done|]. intros _. cbn [snd histogram].
    apply negb_false_iff, andb_true_iff in Hchk.
    unfold bumped. rewrite list_lookup_insert.
    rewrite length_grown_nat. unfold count_at.
    destruct (decide (i = Z.to_nat rank)) as [->|Hne].
    + rewrite lookup_grown by done.
      destruct (decide _) as [_|Hn]; [done|]. destruct Hn. split; [done|lia].
    + destruct (decide _) as [[Heq _]|_]; [by destruct Hne|].
      by apply lookup_grown.
  - intros M i Hi. rewrite expand_unfold. cbn [snd].
    destruct (M >? size (histogram self)); [|done].
    cbn [histogram]. by apply lookup_app_l.
  - intros r n. rewrite add_unfold.
    destruct (negb ((0 <=? r) && (r <=? n))); [cbn; lia|].
    destruct (n =? 0); cbn [snd histogram];
      rewrite ?bumped_length, grown_length; lia.
  - intros M. rewrite expand_unfold. cbn [snd].
    destruct (M >? size (histogram self)); [|lia].
    cbn [histogram]. unfold size. rewrite length_app. lia.
  - rewrite reset_unfold. cbn [snd histogram]. unfold size.
    by rewrite length_replicate.
Qed.

(** *** Order of the observations *)

Lemma count_at_grown N h i : count_at (grown N h) i = count_at h i.
Proof.
  unfold count_at. rewrite grown_eq, lookup_app.
  destruct (h !! i) as [c|]; [done|].
  destruct (replicate _ 0 !! _) as [z|] eqn:Hz; [|done].
  apply lookup_replicate in Hz as [-> _]. done.
Qed.

Lemma count_at_bumped rank h i :
  0 <= rank < size h ->
  count_at (bumped rank h) i =
    if decide (i = Z.to_nat rank)
    then (count_at h i + 1) mod uint32_modulus
    else count_at h i.
Proof.
  intros Hr. unfold bumped, count_at at 1. rewrite list_lookup_insert.
  destruct (decide (i = Z.to_nat rank)) as [->|Hne].
  - destruct (decide _) as [_|Hn]; [done|].
    destruct Hn. unfold size in Hr. split; [done|lia].
  - destruct (decide _) as [[Heq _]|_]; [by destruct Hne|done].
Qed.

Lemma count_at_recorded rank N h i :
  0 <= rank <= N ->
  count_at (bumped rank (grown N h)) i =
    if decide (i = Z.to_nat rank)
    then (count_at h i + 1) mod uint32_modulus
    else count_at h i.
Proof.
  intros Hr. rewrite count_at_bumped, count_at_grown; [done|].
  rewrite grown_length. lia.
Qed.





Lemma zscore_of_total self t :
  np_sum (histogram self) = t -> t <> 0 ->
  zscore self =
    fdiv (fsub (U self) (fmul (of_int t) lit_0_5))
         (fpow_0_5 (fdiv (of_int t) lit_12_0)).
Proof.
  intros <- Ht. unfold zscore.
  by destruct (Z.eqb_spec (np_sum (histogram self)) 0).
Qed.

(** Recording the same accepted observation [n] times adds [n] to its
    counter, modulo [2^32]. *)
Lemma hist_after_same rank N n : forall h,
  0 <= rank <= N -> N + 1 <= size h ->
  0 <= count_at h (Z.to_nat rank) < uint32_modulus ->
  hist_after (replicate n (rank, N)) h =
    <[Z.to_nat rank :=
        (count_at h (Z.to_nat rank) + Z.of_nat n) mod uint32_modulus]> h.
Proof.
  induction n as [|n IH]; intros h Hr Hsz Hc.
  - change (hist_after (replicate 0 (rank, N)) h) with h.
    rewrite Z.add_0_r, Z.mod_small by done.
    symmetry. apply list_insert_id. unfold count_at in *.
    destruct (lookup_lt_is_Some_2 h (Z.to_nat rank)) as [c ->]; [|done].
    unfold size in Hsz. lia.
  - change (hist_after (replicate (S n) (rank, N)) h)
      with (hist_after (replicate n (rank, N)) (bumped rank (grown N h))).
    assert (Hg : grown N h = h).
    { rewrite grown_eq. unfold size in Hsz.
      replace (Z.to_nat (N + 1) - length h)%nat with 0%nat by lia.
      apply app_nil_r. }
    rewrite Hg. rewrite IH; try done.
    + rewrite count_at_bumped by lia. rewrite decide_True by done.
      unfold bumped. rewrite list_insert_insert_eq. f_equal.
      rewrite Zplus_mod_idemp_l. f_equal. lia.
    + by rewrite bumped_length.
    + rewrite count_at_bumped by lia. rewrite decide_True by done.
      apply Z.mod_pos_bound. unfold uint32_modulus. lia.
Qed.

End AccumulatorFacts.

(** ** Exact arithmetic *)

Section Exact.

Local Open Scope R_scope.
Implicit Types (self : UniformOrderAccumulator R) (obs : list (Z * Z)).

Lemma U_term_exact (o : Z * Z) :
  U_term (F:=R) o = (IZR (fst o) + 1 / 2) / IZR (snd o).
Proof. done. Qed.

Lemma U_after_exact obs : forall u : R, U_after obs u = u + sum_terms obs.
Proof.
  induction obs as [|o obs IH]; intros u.
  - cbn. lra.
  - change (U_after (o :: obs) u) with (U_after obs (u + U_term o)).
    rewrite IH. cbn [sum_terms foldr]. fold (sum_terms obs). lra.
Qed.


Lemma np_sum_float_exact (l : list R) : forall a : R,
  foldl Rplus a l = a + foldr Rplus 0 l.
Proof.
  induction l as [|x l IH]; intros a; simpl.
  - lra.
  - rewrite IH. lra.
Qed.



Lemma sigma_pos (n : Z) : (0 < n)%Z -> 0 < sqrt (IZR n / 12).
Proof.
  intros Hn. apply sqrt_lt_R0. apply IZR_lt in Hn.
  apply Rdiv_lt_0_compat; lra.
Qed.



End Exact.

(** ** Binary64 and the concrete scenarios *)

Section Scenarios.

Implicit Types (obs : list (Z * Z)).

Lemma valid_obs_wrapping rank :
  0 <= rank <= 1 -> Forall valid_obs (obs_wrapping rank).
Proof. intros Hr. apply Forall_replicate. unfold valid_obs. cbn [fst snd]. lia. Qed.

Lemma length_obs_wrapping rank :
  Z.of_nat (length (obs_wrapping rank)) = 4294967296.
Proof. unfold obs_wrapping. rewrite length_replicate. by apply Z2Nat.id. Qed.

(** After [2^32] observations of one rank, made on a new accumulator of
    capacity 2, every counter is zero again. *)
Lemma hist_after_wrapping rank :
  0 <= rank <= 1 -> hist_after (obs_wrapping rank) [0; 0] = [0; 0].
Proof.
  intros Hr. unfold obs_wrapping.
  assert (Hc : count_at [0; 0] (Z.to_nat rank) = 0).
  { assert (rank = 0 \/ rank = 1) as [-> | ->] by lia; done. }
  rewrite hist_after_same; [|lia|done|rewrite Hc; done].
  rewrite Hc, Z2Nat.id by done.
  change ((0 + 4294967296) mod uint32_modulus) with 0.
  assert (rank = 0 \/ rank = 1) as [-> | ->] by lia; done.
Qed.

(** [2^32] valid observations of rank 0, replayed after a reset on an
    accumulator of capacity 2, all return, and the length is then 0. *)
Lemma len_wraps_after_2_32_adds :
  Forall valid_obs (obs_wrapping 0)
  /\ Z.of_nat (length (obs_wrapping 0)) = 4294967296
  /\ fst (add_all (obs_wrapping 0)
            (snd (reset (empty_accumulator (F:=float) 2)))) = Returned tt
  /\ __len__ (snd (add_all (obs_wrapping 0)
                     (snd (reset (empty_accumulator (F:=float) 2))))) = 0.
Proof.
  assert (Hv : Forall valid_obs (obs_wrapping 0)) by (by apply valid_obs_wrapping).
  split; [done|]. split; [apply length_obs_wrapping|].
  rewrite add_all_valid by done. split; [done|].
  rewrite reset_unfold. cbn [snd histogram]. unfold __len__. cbn [histogram].
  change (replicate (length (histogram (empty_accumulator 2))) 0) with [0; 0].
  by rewrite hist_after_wrapping.
Qed.


(** C8: on the empty sample, [infinite_U_zscore] divides by zero: the
    divisor [(0 / 12.0) ** 0.5 * B] is zero, for every [B] in exact
    arithmetic and at [B = 1.0] in binary64, where the result is a NaN,
    while [zscore] guards the empty accumulator and answers [0.0]. *)
Theorem infinite_U_zscore_empty_sample :
  (forall (F : Type) (A : PyFloat F) (B : F),
     infinite_U_zscore [] B =
       fdiv (fsub lit_0_0 (fmul (fmul (of_int 0) B) lit_0_5))
            (fmul (fpow_0_5 (fdiv (of_int 0) lit_12_0)) B))
  /\ (forall B : R, fmul (fpow_0_5 (fdiv (of_int 0) lit_12_0)) B = 0%R)
  /\ fmul (fpow_0_5 (fdiv (of_int (F:=float) 0) lit_12_0)) 1%float = 0%float
  /\ PrimFloat.is_nan (infinite_U_zscore (F:=float) [] 1%float) = true
  /\ zscore (empty_accumulator (F:=float) 0) = 0%float.
Proof.
  split; [done|]. split; [|repeat split; by vm_compute].
  intros B. cbn [of_int lit_12_0 fmul fdiv fpow_0_5 exact]; rewrite ?real_pow_0_5_sqrt.
  replace (0 / 12)%R with 0%R by lra. rewrite sqrt_0. lra.
Qed.

Lemma valid_obs_skewed : Forall valid_obs obs_skewed.
Proof. apply Forall_replicate. unfold valid_obs. cbn [fst snd]. lia. Qed.

(** C9: on a new accumulator, of any capacity, ten calls [add 9 10]
    return and leave a [zscore] above 3: 4.9295... in binary64 and
    [(9.5 - 5) / sqrt (10 / 12)] in exact arithmetic. *)
Theorem skewed_sample_zscore (n : Z) :
  0 <= n ->
  (__init__ (F:=float) n = Returned (empty_accumulator n)
   /\ fst (add_all obs_skewed (empty_accumulator (F:=float) n)) = Returned tt
   /\ zscore (snd (add_all obs_skewed (empty_accumulator (F:=float) n)))
      = 0x1.3b7cfa39795p+2%float         (* 4.9295030175464944 *)
   /\ PrimFloat.ltb 3%float
        (zscore (snd (add_all obs_skewed (empty_accumulator (F:=float) n))))
      = true)
  /\ (zscore (snd (add_all obs_skewed (empty_accumulator (F:=R) n)))
      = ((9.5 - 5) / sqrt (10 / 12))%R
      /\ (3 < zscore (snd (add_all obs_skewed (empty_accumulator (F:=R) n))))%R).
Proof.
  intros Hn.
  assert (Htot : np_sum (hist_after obs_skewed (np_zeros n)) = 10).
  { unfold np_zeros. by rewrite np_sum_after_zeros by (done || apply valid_obs_skewed). }
  split.
  - assert (Hz : zscore (snd (add_all obs_skewed (empty_accumulator (F:=float) n)))
                 = 0x1.3b7cfa39795p+2%float).
    { rewrite add_all_valid by apply valid_obs_skewed.
      rewrite (zscore_of_total _ 10) by done. by vm_compute. }
    rewrite Hz. split; [|split; [|split; [done|by vm_compute]]].
    + unfold __init__. by destruct (Z.ltb_spec n 0); [lia|].
    + by rewrite add_all_valid by apply valid_obs_skewed.
  - assert (Hz : zscore (snd (add_all obs_skewed (empty_accumulator (F:=R) n)))
                 = ((9.5 - 5) / sqrt (10 / 12))%R).
    { rewrite add_all_valid by apply valid_obs_skewed.
      rewrite (zscore_of_total _ 10) by done.
      cbn [snd U empty_accumulator]. rewrite U_after_exact.
      cbn [of_int lit_0_0 lit_0_5 lit_12_0 fsub fmul fdiv fpow_0_5 exact]; rewrite ?real_pow_0_5_sqrt.
      f_equal. unfold obs_skewed. cbn [replicate sum_terms foldr].
      rewrite U_term_exact. cbn [fst snd]. lra. }
    rewrite Hz. split; [done|].
    pose proof (sigma_pos 10 eq_refl) as Hpos.
    assert (Hlt1 : (sqrt (10 / 12) < 1)%R).
    { apply Rlt_le_trans with (sqrt 1); [apply sqrt_lt_1_alt; lra|].
      rewrite sqrt_1. lra. }
    set (sg := sqrt (10 / 12)) in *.
    apply (Rmult_lt_reg_r sg); [done|].
    replace ((9.5 - 5) / sg * sg)%R with (9.5 - 5)%R by (field; lra). lra.
Qed.

(** *** The theorems at concrete inputs *)


Lemma capacity_growth_witness :
  size (histogram (snd (add 3 5 (mkAcc [1; 2] 0%float)))) = 5 + 1.
Proof.
  refine (proj1 (capacity_growth (mkAcc [1; 2] 0%float) 3 5 _ _)).
  - unfold size. simpl. lia.
  - reflexivity.
Defined.

Lemma skewed_sample_zscore_witness :
  PrimFloat.ltb 3%float
    (zscore (snd (add_all obs_skewed (empty_accumulator (F:=float) 0))))
  = true.
Proof.
  refine (proj2 (proj2 (proj2 (proj1 (skewed_sample_zscore 0 _))))). lia.
Defined.

End Scenarios.

(** * Further properties of the accumulator *)

Section AccumulatorFrames.

Context {F : Type} `{PyFloat F}.
Implicit Types (self : UniformOrderAccumulator F) (h : list Z).

Lemma add_all_cons rank N rest self :
  add_all ((rank, N) :: rest) self =
    match add rank N self with
    | (Returned _, self') => add_all rest self'
    | (Raised e, self') => (Raised e, self')
    end.
Proof. cbn [add_all]. unfold bind. by destruct (add rank N self) as [[|] ?]. Qed.

Lemma count_at_app_zeros h k i : count_at (h ++ replicate k 0) i = count_at h i.
Proof.
  unfold count_at. rewrite lookup_app.
  destruct (h !! i) as [c|]; [done|].
  destruct (replicate _ 0 !! _) as [z|] eqn:Hz; [|done].
  apply lookup_replicate in Hz as [-> _]. done.
Qed.

Lemma np_sum_app_zeros h k : np_sum (h ++ replicate k 0) = np_sum h.
Proof. rewrite !np_sum_mod, sum_counts_app, sum_counts_zeros. f_equal. lia. Qed.

Lemma np_sum_grown N h : np_sum (grown N h) = np_sum h.
Proof. by rewrite !np_sum_mod, sum_counts_grown. Qed.

Lemma zscore_same_total self1 self2 :
  np_sum (histogram self1) = np_sum (histogram self2) -> U self1 = U self2 ->
  zscore self1 = zscore self2.
Proof. unfold zscore. by intros -> ->. Qed.

(** X2: an [add] that raises leaves every query as it was: [U], every
    count, the length and the [zscore] are unchanged (only the capacity
    may have grown). *)
Theorem add_raised_keeps_queries self rank N e :
  fst (add rank N self) = Raised e ->
  U (snd (add rank N self)) = U self
  /\ (forall i, count_at (histogram (snd (add rank N self))) i
                = count_at (histogram self) i)
  /\ __len__ (snd (add rank N self)) = __len__ self
  /\ zscore (snd (add rank N self)) = zscore self.
Proof.
  rewrite add_unfold.
  destruct (negb ((0 <=? rank) && (rank <=? N))); [done|].
  destruct (N =? 0); [|done]. intros _. cbn [snd U histogram].
  split; [done|]. split; [intros i; apply count_at_grown|].
  split; [apply np_sum_grown|].
  apply zscore_same_total; [apply np_sum_grown|done].
Qed.

Lemma uint32_zeros k : uint32_array (replicate k 0).
Proof. apply Forall_replicate. unfold uint32_modulus. lia. Qed.

Lemma uint32_grown N h : uint32_array h -> uint32_array (grown N h).
Proof.
  intros Hh. rewrite grown_eq. apply Forall_app. split; [done|apply uint32_zeros].
Qed.

Lemma uint32_bumped rank h : uint32_array h -> uint32_array (bumped rank h).
Proof.
  intros Hh. unfold bumped. apply Forall_insert; [done|].
  apply Z.mod_pos_bound. unfold uint32_modulus. lia.
Qed.

Lemma uint32_add self rank N :
  uint32_array (histogram self) ->
  uint32_array (histogram (snd (add rank N self))).
Proof.
  intros Hh. rewrite add_unfold.
  destruct (negb ((0 <=? rank) && (rank <=? N))); [done|].
  destruct (N =? 0); cbn [snd histogram].
  - by apply uint32_grown.
  - by apply uint32_bumped, uint32_grown.
Qed.

Lemma uint32_add_all obs : forall self,
  uint32_array (histogram self) ->
  uint32_array (histogram (snd (add_all obs self))).
Proof.
  induction obs as [|[rank N] obs IH]; intros self Hh; [done|].
  rewrite add_all_cons. pose proof (uint32_add self rank N Hh) as Hh'.
  destruct (add rank N self) as [[[]|e] self']; cbn [snd] in *; [by apply IH|done].
Qed.

(** X3: the counts stay [uint32] values: from a state whose counts lie
    in [[0, 2^32)], every [add] (returning or raising), every [expand],
    [reset] and every replay of observations, valid or not, leave counts
    in [[0, 2^32)]; and [__init__] builds such a state. *)
Theorem counts_stay_uint32 self :
  uint32_array (histogram self) ->
  (forall rank N, uint32_array (histogram (snd (add rank N self))))
  /\ (forall N, uint32_array (histogram (snd (expand N self))))
  /\ uint32_array (histogram (snd (reset self)))
  /\ (forall obs, uint32_array (histogram (snd (add_all obs self))))
  /\ (forall N new, __init__ N = Returned new -> uint32_array (histogram new)).
Proof.
  intros Hh. split; [|split; [|split; [|split]]].
  - intros rank N. by apply uint32_add.
  - intros N. rewrite expand_unfold. cbn [snd].
    destruct (N >? size (histogram self)); [|done]. cbn [histogram].
    apply Forall_app. split; [done|apply uint32_zeros].
  - rewrite reset_unfold. apply uint32_zeros.
  - intros obs. by apply uint32_add_all.
  - intros N new. unfold __init__. destruct (N <? 0); [done|].
    intros [= <-]. apply uint32_zeros.
Qed.

(** *** What a replay leaves in the histogram *)

Lemma uint32_nonneg h : uint32_array h -> Forall (Z.le 0) h.
Proof. intros Hh. eapply Forall_impl; [exact Hh|]. cbn beta. lia. Qed.

Lemma count_at_uint32 h i :
  uint32_array h -> 0 <= count_at h i < uint32_modulus.
Proof.
  intros Hh. unfold count_at. destruct (h !! i) as [c|] eqn:Hc.
  - apply (Forall_lookup_1 _ _ _ _ Hh Hc).
  - cbn. unfold uint32_modulus. lia.
Qed.

Lemma count_at_zeros k i : count_at (replicate k 0) i = 0.
Proof.
  unfold count_at. destruct (replicate k 0 !! i) as [z|] eqn:Hz; [|done].
  apply lookup_replicate in Hz as [-> _]. done.
Qed.

Lemma count_at_hist_after obs : forall h i,
  Forall valid_obs obs -> uint32_array h ->
  count_at (hist_after obs h) i
  = (count_at h i + occurrences i obs) mod uint32_modulus.
Proof.
  induction obs as [|[rank N] obs IH]; intros h i Hv Hh.
  - change (hist_after [] h) with h. cbn [occurrences foldr].
    rewrite Z.add_0_r, Z.mod_small; [done|by apply count_at_uint32].
  - apply Forall_cons in Hv as [[Hr _] Hv]. cbn [fst snd] in Hr.
    change (hist_after ((rank, N) :: obs) h)
      with (hist_after obs (bumped rank (grown N h))).
    rewrite IH by (done || by apply uint32_bumped, uint32_grown).
    rewrite count_at_recorded by done.
    cbn [occurrences foldr fst]. fold (occurrences i obs).
    destruct (decide (i = Z.to_nat rank)) as [->|Hne].
    + rewrite decide_True by done. rewrite Zplus_mod_idemp_l. f_equal. lia.
    + rewrite decide_False by done. done.
Qed.




Lemma sum_counts_all_zero h : (forall i, count_at h i = 0) -> sum_counts h = 0.
Proof.
  induction h as [|c h IH]; intros Hz; [done|].
  pose proof (Hz 0%nat) as H0. cbn in H0. subst c.
  change (sum_counts (0 :: h)) with (0 + sum_counts h).
  rewrite IH; [done|]. intros i. apply (Hz (S i)).
Qed.

(** Arrays with the same counts, whatever their sizes, have the same
    sum. *)
Lemma sum_counts_ext h1 : forall h2,
  (forall i, count_at h1 i = count_at h2 i) -> sum_counts h1 = sum_counts h2.
Proof.
  induction h1 as [|c1 h1 IH]; intros h2 Hc.
  - symmetry. apply sum_counts_all_zero. intros i. by rewrite <- Hc.
  - destruct h2 as [|c2 h2].
    + apply sum_counts_all_zero. intros i. by rewrite Hc.
    + pose proof (Hc 0%nat) as H0. cbn in H0. subst c2.
      change (c1 + sum_counts h1 = c1 + sum_counts h2). f_equal.
      apply IH. intros i. apply (Hc (S i)).
Qed.

(** X7: the capacity given to [__init__] shows in no query: replaying
    the same valid observations on new accumulators of two capacities
    gives the same [U], the same counts, the same length and the same
    [zscore], in any float arithmetic. *)
Theorem queries_ignore_capacity obs (k1 k2 : Z) :
  Forall valid_obs obs ->
  U (snd (add_all obs (empty_accumulator k1)))
  = U (snd (add_all obs (empty_accumulator k2)))
  /\ (forall i, count_at (histogram (snd (add_all obs (empty_accumulator k1)))) i
                = count_at (histogram (snd (add_all obs (empty_accumulator k2)))) i)
  /\ __len__ (snd (add_all obs (empty_accumulator k1)))
     = __len__ (snd (add_all obs (empty_accumulator k2)))
  /\ zscore (snd (add_all obs (empty_accumulator k1)))
     = zscore (snd (add_all obs (empty_accumulator k2))).
Proof.
  intros Hv. rewrite !add_all_valid by done.
  cbn [snd histogram U empty_accumulator]. unfold np_zeros.
  assert (Hc : forall i,
    count_at (hist_after obs (replicate (Z.to_nat k1) 0)) i
    = count_at (hist_after obs (replicate (Z.to_nat k2) 0)) i).
  { intros i. rewrite !count_at_hist_after by (done || apply uint32_zeros).
    by rewrite !count_at_zeros. }
  assert (Hs : np_sum (hist_after obs (replicate (Z.to_nat k1) 0))
               = np_sum (hist_after obs (replicate (Z.to_nat k2) 0))).
  { rewrite !np_sum_mod. f_equal. by apply sum_counts_ext. }
  repeat split; try done. by apply zscore_same_total.
Qed.


End AccumulatorFrames.


(** ** Further properties in exact arithmetic *)

Section ExactStatistics.

Local Open Scope R_scope.
Implicit Types (self : UniformOrderAccumulator R) (obs : list (Z * Z)).

Lemma below_scale_valid obs : Forall below_scale obs -> Forall valid_obs obs.
Proof.
  intros Hb. eapply Forall_impl; [exact Hb|].
  intros o Ho. unfold below_scale in Ho. unfold valid_obs. lia.
Qed.

(** After a reset and fewer than [2^32] valid observations, [zscore] is
    the formula on the sum of the terms and their number. *)
Lemma zscore_after_reset self obs :
  obs <> [] -> Forall valid_obs obs ->
  (Z.of_nat (length obs) < uint32_modulus)%Z ->
  zscore (snd (add_all obs (snd (reset self))))
  = (sum_terms obs - INR (length obs) * (1 / 2)) / sqrt (INR (length obs) / 12).
Proof.
  intros Hne Hv Hlt.
  rewrite add_all_valid, reset_unfold by done. cbn [snd histogram U].
  rewrite (zscore_of_total _ (Z.of_nat (length obs))); cbn [histogram U].
  - rewrite U_after_exact, INR_IZR_INZ.
    cbn [of_int lit_0_0 lit_0_5 lit_12_0 fsub fmul fdiv fpow_0_5 exact]; rewrite ?real_pow_0_5_sqrt.
    by rewrite Rplus_0_l.
  - by apply np_sum_after_zeros.
  - destruct obs; [done|cbn [length]; lia].
Qed.

Lemma sigma_pos_nat (n : nat) : (0 < n)%nat -> 0 < sqrt (INR n / 12).
Proof.
  intros Hn. rewrite INR_IZR_INZ. apply sigma_pos. lia.
Qed.






Lemma sum_terms_mirror obs :
  Forall (fun o => snd o <> 0%Z) obs ->
  sum_terms (map mirror obs) = INR (length obs) - sum_terms obs.
Proof.
  induction 1 as [|[rank N] obs HN _ IH].
  - cbn. lra.
  - cbn [map length sum_terms foldr].
    fold (sum_terms (map mirror obs)) (sum_terms obs).
    rewrite IH, S_INR, !U_term_exact. unfold mirror. cbn [fst snd] in *.
    rewrite !minus_IZR. apply not_0_IZR in HN. field. done.
Qed.

(** X11: counting the ranks from the other end negates the statistic:
    for fewer than [2^32] observations with [0 <= rank < N], replaying
    the observations [(N - 1 - rank, N)] after a reset gives, in exact
    arithmetic, the opposite of the [zscore] of the observations
    [(rank, N)]. *)
Theorem mirrored_ranks_negate_zscore self obs :
  Forall below_scale obs ->
  (Z.of_nat (length obs) < uint32_modulus)%Z ->
  zscore (snd (add_all (map mirror obs) (snd (reset self))))
  = - zscore (snd (add_all obs (snd (reset self)))).
Proof.
  intros Hb Hlt. destruct (decide (obs = [])) as [->|Hne].
  - cbn [map add_all]. rewrite reset_unfold. cbn [ret snd].
    unfold zscore. cbn [histogram U]. rewrite np_sum_zeros.
    cbn [Z.eqb lit_0_0 exact]. lra.
  - assert (Hv : Forall valid_obs obs) by (by apply below_scale_valid).
    assert (Hvm : Forall valid_obs (map mirror obs)).
    { clear -Hb. induction Hb as [|o obs Ho _ IH]; cbn [map]; constructor; [|done].
      unfold below_scale in Ho. unfold valid_obs, mirror. cbn [fst snd]. lia. }
    assert (Hn : (0 < length obs)%nat) by (destruct obs; [done|cbn; lia]).
    pose proof (sigma_pos_nat _ Hn) as Hsig.
    rewrite !zscore_after_reset; try done.
    + rewrite length_map, sum_terms_mirror.
      * field. lra.
      * eapply Forall_impl; [exact Hb|]. unfold below_scale. lia.
    + by destruct obs.
    + by rewrite length_map.
Qed.

Lemma U_term_below_scale (o : Z * Z) :
  below_scale o -> 0 < U_term (F:=R) o < 1.
Proof.
  destruct o as [rank N]. unfold below_scale. cbn [fst snd]. intros [Hr HN].
  rewrite U_term_exact. cbn [fst snd].
  assert (H0 : 0 <= IZR rank) by (by apply IZR_le).
  assert (H1 : IZR rank + 1 <= IZR N).
  { rewrite <- plus_IZR. apply IZR_le. lia. }
  split.
  - apply Rdiv_lt_0_compat; lra.
  - apply (Rmult_lt_reg_r (IZR N)); [lra|].
    replace ((IZR rank + 1 / 2) / IZR N * IZR N) with (IZR rank + 1 / 2)
      by (field; lra).
    lra.
Qed.

Lemma sum_terms_between obs :
  Forall below_scale obs -> 0 <= sum_terms obs <= INR (length obs).
Proof.
  induction 1 as [|o obs Ho _ IH].
  - cbn. lra.
  - cbn [length sum_terms foldr]. fold (sum_terms obs). rewrite S_INR.
    pose proof (U_term_below_scale o Ho). lra.
Qed.

Lemma sum_terms_strictly_between obs :
  obs <> [] -> Forall below_scale obs ->
  0 < sum_terms obs < INR (length obs).
Proof.
  intros Hne Hb. destruct Hb as [|o obs Ho Hb]; [done|].
  cbn [length sum_terms foldr]. fold (sum_terms obs). rewrite S_INR.
  pose proof (U_term_below_scale o Ho). pose proof (sum_terms_between obs Hb). lra.
Qed.

(** X12: the statistic of [n] observations is bounded: after a reset
    and [n] observations with [0 <= rank < N], [1 <= n < 2^32], the
    exact [zscore] satisfies [zscore^2 < 3 n]; a value beyond 3 therefore
    needs at least four observations. *)
Theorem zscore_square_bound self obs :
  obs <> [] ->
  Forall below_scale obs ->
  (Z.of_nat (length obs) < uint32_modulus)%Z ->
  zscore (snd (add_all obs (snd (reset self))))
  * zscore (snd (add_all obs (snd (reset self))))
  < 3 * INR (length obs).
Proof.
  intros Hne Hb Hlt.
  assert (Hn : (0 < length obs)%nat) by (destruct obs; [done|cbn; lia]).
  pose proof (sigma_pos_nat _ Hn) as Hsig.
  pose proof (sum_terms_strictly_between obs Hne Hb) as Hs.
  assert (Hn0 : 0 < INR (length obs)) by (by apply lt_0_INR).
  rewrite zscore_after_reset by (done || by apply below_scale_valid).
  set (n := INR (length obs)) in *. set (d := sum_terms obs - n * (1 / 2)).
  assert (Hsq : sqrt (n / 12) * sqrt (n / 12) = n / 12).
  { apply sqrt_sqrt. apply Rlt_le, Rdiv_lt_0_compat; lra. }
  assert (Hz : d / sqrt (n / 12) * (d / sqrt (n / 12)) = d * d * 12 / n).
  { transitivity (d * d / (sqrt (n / 12) * sqrt (n / 12))).
    - field. lra.
    - rewrite Hsq. field. lra. }
  rewrite Hz.
  assert (Hd : d * d < n * n / 4) by (unfold d; nra).
  apply (Rmult_lt_reg_r n); [done|].
  replace (d * d * 12 / n * n) with (d * d * 12) by (field; lra).
  nra.
Qed.

(** X13: the sign of [zscore] is the sign of [U - total / 2]: for
    every state with a non-zero length, the exact [zscore] is positive,
    negative or zero exactly when [U] is above, below or equal to half
    the length. *)
Theorem zscore_sign self :
  (0 < __len__ self)%Z ->
  (0 < zscore self <-> IZR (__len__ self) / 2 < U self)
  /\ (zscore self < 0 <-> U self < IZR (__len__ self) / 2)
  /\ (zscore self = 0 <-> U self = IZR (__len__ self) / 2).
Proof.
  unfold __len__. intros Hn. pose proof (sigma_pos _ Hn) as Hsig.
  rewrite (zscore_of_total self (np_sum (histogram self))) by (done || lia).
  cbn [of_int lit_0_5 lit_12_0 fsub fmul fdiv fpow_0_5 exact]; rewrite ?real_pow_0_5_sqrt.
  set (n := IZR (np_sum (histogram self))) in *.
  set (sg := sqrt (n / 12)) in *. set (d := U self - n * (1 / 2)).
  assert (Hz : d / sg * sg = d) by (field; lra).
  assert (Hd : d = U self - n / 2) by (unfold d; lra).
  repeat split; intros Hyp; nra.
Qed.

Lemma foldr_Rplus_perm (l1 l2 : list R) :
  Permutation l1 l2 -> foldr Rplus 0 l1 = foldr Rplus 0 l2.
Proof.
  induction 1 as [|x l1 l2 _ IH|x y l|l1 l2 l3 _ IH12 _ IH23]; cbn [foldr].
  - done.
  - by rewrite IH.
  - lra.
  - congruence.
Qed.

(** X14: in exact arithmetic [infinite_U_zscore] depends on the sample
    only through its sum and its size: any permutation of the sample
    gives the same value, for every [B]. *)
Theorem infinite_U_zscore_perm (sample1 sample2 : list R) (B : R) :
  Permutation sample1 sample2 ->
  infinite_U_zscore sample1 B = infinite_U_zscore sample2 B.
Proof.
  intros Hp. unfold infinite_U_zscore, np_sum_float.
  rewrite (Permutation_length Hp).
  cbn [fadd lit_0_0 exact]. rewrite !np_sum_float_exact.
  rewrite (foldr_Rplus_perm _ _ (Permutation_map _ Hp)). done.
Qed.

End ExactStatistics.

(** ** The further properties at concrete inputs *)

Section FurtherScenarios.

Lemma add_raised_keeps_queries_witness :
  __len__ (snd (add 0 0 (mkAcc [] 0%float))) = __len__ (mkAcc [] 0%float).
Proof.
  refine (proj1 (proj2 (proj2
    (add_raised_keeps_queries (mkAcc [] 0%float) 0 0 ZeroDivisionError _)))).
  reflexivity.
Defined.

Lemma counts_stay_uint32_witness :
  uint32_array (histogram (snd (add 0 1 (mkAcc [4294967295; 2] 0%float)))).
Proof.
  refine (proj1 (counts_stay_uint32 (mkAcc [4294967295; 2] 0%float) _) 0 1).
  repeat constructor; unfold uint32_modulus; lia.
Defined.



Lemma queries_ignore_capacity_witness :
  zscore (snd (add_all obs_small_first (empty_accumulator (F:=float) 0)))
  = zscore (snd (add_all obs_small_first (empty_accumulator (F:=float) 7))).
Proof.
  refine (proj2 (proj2 (proj2
    (queries_ignore_capacity (F:=float) obs_small_first 0 7 _)))).
  repeat constructor; simpl; lia.
Defined.



Lemma mirrored_ranks_negate_zscore_witness :
  zscore (snd (add_all (map mirror [(0, 3); (1, 3); (0, 2)])
                 (snd (reset (mkAcc [] 0%R)))))
  = Ropp (zscore (snd (add_all [(0, 3); (1, 3); (0, 2)]
                           (snd (reset (mkAcc [] 0%R)))))).
Proof.
  refine (mirrored_ranks_negate_zscore (mkAcc [] 0%R)
            [(0, 3); (1, 3); (0, 2)] _ _).
  - repeat constructor; simpl; lia.
  - reflexivity.
Defined.

Lemma zscore_square_bound_witness :
  Rlt (Rmult
         (zscore (snd (add_all [(2, 3); (2, 3)] (snd (reset (mkAcc [] 0%R))))))
         (zscore (snd (add_all [(2, 3); (2, 3)] (snd (reset (mkAcc [] 0%R)))))))
      (Rmult 3%R (INR (length [(2, 3); (2, 3)]))).
Proof.
  refine (zscore_square_bound (mkAcc [] 0%R) [(2, 3); (2, 3)] _ _ _).
  - discriminate.
  - repeat constructor; simpl; lia.
  - reflexivity.
Defined.

Lemma zscore_sign_witness :
  (0 < zscore (mkAcc [2; 1]%Z 2%R)
   <-> IZR (__len__ (mkAcc [2; 1]%Z 2%R)) / 2 < U (mkAcc [2; 1]%Z 2%R))%R.
Proof.
  refine (proj1 (zscore_sign (mkAcc [2; 1] 2%R) _)). reflexivity.
Defined.

Lemma infinite_U_zscore_perm_witness :
  infinite_U_zscore [1%R; 2%R] 3%R = infinite_U_zscore [2%R; 1%R] 3%R.
Proof.
  refine (infinite_U_zscore_perm [1%R; 2%R] [2%R; 1%R] 3%R _).
  apply perm_swap.
Defined.

End FurtherScenarios.

(** * The accumulator on a machine that can refuse memory *)

Section MachineFacts.

Context {F : Type} `{PyFloat F}.
Variable available : Z -> bool.
Implicit Types (self : UniformOrderAccumulator F) (h : list Z).

(** [np.zeros] delivers exactly for a size in [[0, 2^61)] that the
    machine grants, and then delivers zeros. *)
Lemma machine_np_zeros_returned n new :
  Machine.np_zeros available n = Returned new <->
  (0 <= n < numpy_max_cells /\ available n = true) /\ new = np_zeros n.
Proof.
  unfold Machine.np_zeros, np_zeros.
  destruct (Z.ltb_spec n 0); [split; [done|lia]|].
  destruct (Z.leb_spec numpy_max_cells n); [split; [done|lia]|].
  destruct (available n); [|split; [done|by intros [[_ ?] _]]].
  split.
  - intros [= <-]. repeat split; (done || lia).
  - by intros [_ ->].
Qed.

(** [expand]: what the allocation decides. *)
Lemma machine_expand_unfold self N :
  Machine.expand available N self =
    if N >? size (histogram self)
    then if numpy_max_cells <=? N then (Raised ValueError_array_too_big, self)
         else if available N then expand N self
         else (Raised MemoryError, self)
    else (Returned tt, self).
Proof.
  rewrite expand_unfold.
  unfold Machine.expand, Machine.np_zeros, bind, get_histogram, set_histogram,
    raise, ret.
  pose proof (size_nonneg (histogram self)).
  destruct (Z.gtb_spec N (size (histogram self))); [|done].
  destruct (Z.ltb_spec N 0); [lia|].
  destruct (numpy_max_cells <=? N); [done|].
  destruct (available N); [|done].
  f_equal. f_equal. apply (assign_prefix_zeros N).
Qed.

(** [add] is the [add] of a machine that never refuses, unless the
    array has to grow and the allocation is refused; the refusal comes
    before any update. *)
Lemma machine_add_unfold self rank N :
  Machine.add available rank N self =
    if negb ((0 <=? rank) && (rank <=? N))
    then (Raised (ValueError_order rank N), self)
    else if (N >=? size (histogram self)) && (numpy_max_cells <=? N + 1)
    then (Raised ValueError_array_too_big, self)
    else if (N >=? size (histogram self)) && negb (available (N + 1))
    then (Raised MemoryError, self)
    else add rank N self.
Proof.
  unfold Machine.add, add.
  destruct (negb ((0 <=? rank) && (rank <=? N))); [done|].
  cbv [bind get_histogram].
  destruct (Z.geb_spec N (size (histogram self))) as [Hge|Hlt]; cbn [andb]; [|done].
  rewrite machine_expand_unfold.
  destruct (Z.gtb_spec (N + 1) (size (histogram self))); [|lia].
  destruct (numpy_max_cells <=? N + 1); [done|].
  destruct (available (N + 1)); [done|done].
Qed.

Lemma machine_add_all_cons rank N rest self :
  Machine.add_all available ((rank, N) :: rest) self =
    match Machine.add available rank N self with
    | (Returned _, self') => Machine.add_all available rest self'
    | (Raised e, self') => (Raised e, self')
    end.
Proof.
  cbn [Machine.add_all]. unfold bind.
  by destruct (Machine.add available rank N self) as [[|] ?].
Qed.

(** A call that returns on the machine is the call on a machine that
    never refuses. *)
Lemma machine_add_returned self rank N :
  fst (Machine.add available rank N self) = Returned tt ->
  Machine.add available rank N self = add rank N self.
Proof.
  rewrite machine_add_unfold.
  destruct (negb ((0 <=? rank) && (rank <=? N))).
  - cbn [fst]. intros Heq. discriminate Heq.
  - destruct ((N >=? size (histogram self)) && (numpy_max_cells <=? N + 1));
      [cbn [fst]; intros Heq; discriminate Heq|].
    destruct ((N >=? size (histogram self)) && negb (available (N + 1)));
      [cbn [fst]; intros Heq; discriminate Heq|].
    done.
Qed.

Lemma machine_add_all_returned obs : forall self,
  fst (Machine.add_all available obs self) = Returned tt ->
  Machine.add_all available obs self = add_all obs self.
Proof.
  induction obs as [|[rank N] obs IH]; intros self Hret; [done|].
  rewrite machine_add_all_cons in Hret. rewrite machine_add_all_cons, add_all_cons.
  destruct (Machine.add available rank N self) as [[[]|e] self'] eqn:Hadd;
    [|done].
  rewrite <- (machine_add_returned self rank N) by (by rewrite Hadd).
  rewrite Hadd. by apply IH.
Qed.

(** A replay without refusal: every array asked for is below NumPy's
    limit and granted. *)
Lemma machine_add_all_granted obs : forall self,
  (forall n, available n = true) ->
  Forall (fun o => snd o + 1 < numpy_max_cells) obs ->
  Machine.add_all available obs self = add_all obs self.
Proof.
  induction obs as [|[rank N] obs IH]; intros self Hav Hsmall; [done|].
  apply Forall_cons in Hsmall as [HN Hsmall]. cbn [snd] in HN.
  rewrite machine_add_all_cons, add_all_cons, machine_add_unfold.
  destruct (negb ((0 <=? rank) && (rank <=? N))) eqn:Hchk.
  { rewrite add_unfold, Hchk. done. }
  destruct (Z.leb_spec numpy_max_cells (N + 1)); [lia|].
  rewrite Hav, !andb_false_r.
  destruct (add rank N self) as [[[]|e] self']; [by apply IH|done].
Qed.

(** C2, amended: with a positive scale [N], [add rank N] raises the
    invalid-rank [ValueError] exactly when [rank < 0] or [rank > N], and
    the state is then as it was.  With [0 <= rank <= N] it returns
    exactly when the array need not grow ([N < capacity]) or the
    [N + 1] cells are below NumPy's limit and granted; otherwise it
    raises NumPy's [ValueError] for an array too big or a [MemoryError],
    again with the state as it was.  So [add 0 1] and [add N N] return
    under that condition, and [add (N + 1) N] and [add (-1) N] raise the
    invalid-rank error. *)
Theorem add_invalid_rank_iff self rank N :
  1 <= N ->
  (is_InvalidRank (fst (Machine.add available rank N self)) = true
   <-> rank < 0 \/ rank > N)
  /\ (is_InvalidRank (fst (Machine.add available rank N self)) = true ->
      fst (Machine.add available rank N self) = Raised (ValueError_order rank N)
      /\ snd (Machine.add available rank N self) = self)
  /\ (0 <= rank <= N ->
      (fst (Machine.add available rank N self) = Returned tt
       <-> N < size (histogram self)
           \/ (N + 1 < numpy_max_cells /\ available (N + 1) = true)))
  /\ (0 <= rank <= N ->
      fst (Machine.add available rank N self) <> Returned tt ->
      snd (Machine.add available rank N self) = self
      /\ (fst (Machine.add available rank N self) = Raised ValueError_array_too_big
          \/ fst (Machine.add available rank N self) = Raised MemoryError))
  /\ (fst (Machine.add available 0 1 self) = Returned tt
      <-> 1 < size (histogram self) \/ available 2 = true)
  /\ (fst (Machine.add available N N self) = Returned tt
      <-> N < size (histogram self)
          \/ (N + 1 < numpy_max_cells /\ available (N + 1) = true))
  /\ fst (Machine.add available (N + 1) N self) = Raised (ValueError_order (N + 1) N)
  /\ fst (Machine.add available (-1) N self) = Raised (ValueError_order (-1) N).
Proof.
  intros HN.
  assert (Hout : forall r, r < 0 \/ r > N ->
            Machine.add available r N self = (Raised (ValueError_order r N), self)).
  { intros r Hr. rewrite machine_add_unfold.
    destruct (Z.leb_spec 0 r); destruct (Z.leb_spec r N); done || lia. }
  assert (Hin : forall r M, 0 <= r <= M -> 1 <= M ->
    Machine.add available r M self =
      if (M >=? size (histogram self)) && (numpy_max_cells <=? M + 1)
      then (Raised ValueError_array_too_big, self)
      else if (M >=? size (histogram self)) && negb (available (M + 1))
      then (Raised MemoryError, self)
      else (Returned tt,
            mkAcc (bumped r (grown M (histogram self)))
                  (fadd (U self) (U_term (r, M))))).
  { intros r M Hr HM. rewrite machine_add_unfold.
    destruct (Z.leb_spec 0 r); [|lia]. destruct (Z.leb_spec r M); [|lia].
    cbn [andb negb]. by rewrite add_accepted by lia. }
  assert (Hret : forall r M, 0 <= r <= M -> 1 <= M ->
    (fst (Machine.add available r M self) = Returned tt
     <-> M < size (histogram self)
         \/ (M + 1 < numpy_max_cells /\ available (M + 1) = true))).
  { intros r M Hr HM. rewrite (Hin r M Hr HM).
    destruct (Z.geb_spec M (size (histogram self)));
      destruct (Z.leb_spec numpy_max_cells (M + 1));
      destruct (available (M + 1)); cbn [andb negb fst];
      (split; [try done; intros _|intros [?|[? ?]]; try done; try lia]);
      (lia || (by right) || (by left)). }
  split; [|split; [|split; [|split; [|split; [|split; [|split]]]]]].
  - destruct (decide (0 <= rank <= N)) as [Hr|Hr].
    + rewrite (Hin rank N Hr HN). split; [|lia].
      by destruct (_ && _); [|destruct (_ && _)].
    + rewrite (Hout rank) by lia. cbn [fst is_InvalidRank]. split; [lia|done].
  - destruct (decide (0 <= rank <= N)) as [Hr|Hr].
    + rewrite (Hin rank N Hr HN).
      by destruct (_ && _); [|destruct (_ && _)].
    + by rewrite (Hout rank) by lia.
  - intros Hr. by apply Hret.
  - intros Hr. rewrite (Hin rank N Hr HN).
    destruct (_ && _); [by auto|]. destruct (_ && _); [by auto|done].
  - rewrite (Hret 0 1) by lia. unfold numpy_max_cells. split.
    + intros [?|[_ ?]]; [by left|by right].
    + intros [?|?]; [by left|right; split; [lia|done]].
  - apply Hret; lia.
  - by rewrite Hout by lia.
  - by rewrite Hout by lia.
Qed.

(** X1: the outcomes of [add], for every machine, state, rank and scale.
    It raises the invalid-rank [ValueError] exactly when the check
    [0 <= rank <= N] fails (so always for a negative [N]).  Past the
    check, when the array has to grow ([N >= capacity]), it raises the
    [ValueError] of an array too big exactly for [N + 1 >= 2^61] and a
    [MemoryError] exactly when the [N + 1] cells are not granted.
    Otherwise it raises [ZeroDivisionError] exactly for [N = 0], and
    returns for every other call.  It never raises an [IndexError]. *)
Theorem add_outcomes self rank N :
  let refused_size :=
    N >= size (histogram self) /\ numpy_max_cells <= N + 1 in
  let refused_memory :=
    N >= size (histogram self) /\ N + 1 < numpy_max_cells
    /\ available (N + 1) = false in
  (fst (Machine.add available rank N self) = Raised (ValueError_order rank N)
   <-> ~ (0 <= rank <= N))
  /\ (fst (Machine.add available rank N self) = Raised ValueError_array_too_big
      <-> 0 <= rank <= N /\ refused_size)
  /\ (fst (Machine.add available rank N self) = Raised MemoryError
      <-> 0 <= rank <= N /\ refused_memory)
  /\ (fst (Machine.add available rank N self) = Raised ZeroDivisionError
      <-> rank = 0 /\ N = 0 /\ ~ refused_size /\ ~ refused_memory)
  /\ (fst (Machine.add available rank N self) = Returned tt
      <-> 0 <= rank <= N /\ N <> 0 /\ ~ refused_size /\ ~ refused_memory)
  /\ fst (Machine.add available rank N self) <> Raised IndexError
  /\ fst (Machine.add available rank N self) <> Raised ValueError_negative_dimensions.
Proof.
  cbv zeta. rewrite machine_add_unfold, add_unfold.
  destruct (Z.leb_spec 0 rank); destruct (Z.leb_spec rank N);
    cbn [andb negb fst]; try (repeat split; (done || lia)).
  destruct (Z.geb_spec N (size (histogram self)));
    destruct (Z.leb_spec numpy_max_cells (N + 1));
    destruct (available (N + 1)) eqn:Hav; cbn [andb negb fst];
    destruct (Z.eqb_spec N 0); cbn [fst];
    repeat split; try done; try lia;
    try (intros; exfalso; lia); try (intros (? & ? & ?); (done || lia));
    try (intros (? & ? & ? & ?); (done || lia));
    try (intros [? [? ?]]; done);
    try (intros [Ha Hb]; (lia || (destruct Hb as (? & ? & ?); done)));
    try (intros (? & ? & Ha & Hb); first [lia | destruct Ha; lia | destruct Hb; done]).
Qed.

(** X4: [expand N] returns exactly when [N <= capacity] or the [N]
    cells are below NumPy's limit and granted.  When it returns, the
    capacity is [max capacity N], the new cells hold zero, so [U], every
    count, the length and the [zscore] are unchanged, and a second
    [expand N] returns and changes nothing.  When it raises, the state
    is as it was. *)
Theorem expand_frame self N :
  (fst (Machine.expand available N self) = Returned tt
   <-> N <= size (histogram self)
       \/ (N < numpy_max_cells /\ available N = true))
  /\ (fst (Machine.expand available N self) = Returned tt ->
      size (histogram (snd (Machine.expand available N self)))
      = Z.max (size (histogram self)) N
      /\ U (snd (Machine.expand available N self)) = U self
      /\ (forall i, count_at (histogram (snd (Machine.expand available N self))) i
                    = count_at (histogram self) i)
      /\ __len__ (snd (Machine.expand available N self)) = __len__ self
      /\ zscore (snd (Machine.expand available N self)) = zscore self
      /\ Machine.expand available N (snd (Machine.expand available N self))
         = (Returned tt, snd (Machine.expand available N self)))
  /\ (fst (Machine.expand available N self) <> Returned tt ->
      snd (Machine.expand available N self) = self).
Proof.
  rewrite (machine_expand_unfold (snd (Machine.expand available N self))).
  rewrite machine_expand_unfold, expand_unfold. unfold size.
  destruct (Z.gtb_spec N (Z.of_nat (length (histogram self)))) as [Hgt|Hle].
  - destruct (Z.leb_spec numpy_max_cells N).
    { cbn [fst snd]. split; [split; [done|lia]|done]. }
    destruct (available N) eqn:Hav.
    2:{ cbn [fst snd]. split; [split; [done|]|done]. intros [?|[_ ?]]; [lia|done]. }
    cbn [fst snd histogram U]. rewrite length_app, length_replicate.
    destruct (Z.gtb_spec N
      (Z.of_nat (length (histogram self)
                 + (Z.to_nat N - length (histogram self)))%nat)); [lia|].
    split; [split; [intros _; right; by split|done]|]. split; [|done].
    intros _. repeat split; try done.
    + lia.
    + intros i. apply count_at_app_zeros.
    + unfold __len__. cbn [histogram]. apply np_sum_app_zeros.
    + apply zscore_same_total; [apply np_sum_app_zeros|done].
  - cbn [fst snd].
    destruct (Z.gtb_spec N (Z.of_nat (length (histogram self)))); [lia|].
    split; [split; [intros _; by left|done]|]. split; [|done].
    intros _. repeat split; try done. lia.
Qed.

End MachineFacts.

(** ** Lengths, sums and the limits of the counters *)

Section Limits.

Context {F : Type} `{PyFloat F}.
Variable available : Z -> bool.
Implicit Types (self : UniformOrderAccumulator F) (h : list Z).

Lemma occurrences_nonneg i obs : 0 <= occurrences i obs.
Proof.
  induction obs as [|o obs IH]; [done|].
  cbn [occurrences foldr]. fold (occurrences i obs).
  destruct (decide _); lia.
Qed.

(** While no counter wraps, the counts add up to the number of
    observations. *)
Lemma hist_after_sum_nowrap obs : forall h,
  Forall valid_obs obs -> uint32_array h ->
  (forall i, count_at h i + occurrences i obs < uint32_modulus) ->
  sum_counts (hist_after obs h) = sum_counts h + Z.of_nat (length obs).
Proof.
  induction obs as [|[rank N] obs IH]; intros h Hv Hh Hocc.
  - change (hist_after [] h) with h. cbn [length]. lia.
  - apply Forall_cons in Hv as [[Hr HN] Hv]. cbn [fst snd] in Hr, HN.
    change (hist_after ((rank, N) :: obs) h)
      with (hist_after obs (bumped rank (grown N h))).
    pose proof (uint32_grown N h Hh) as Hg.
    pose proof (Hocc (Z.to_nat rank)) as Hrank.
    cbn [occurrences foldr fst] in Hrank. fold (occurrences (Z.to_nat rank) obs) in Hrank.
    rewrite decide_True in Hrank by done.
    pose proof (occurrences_nonneg (Z.to_nat rank) obs) as Hnn.
    pose proof (count_at_uint32 h (Z.to_nat rank) Hh) as Hc.
    destruct (lookup_lt_is_Some_2 (grown N h) (Z.to_nat rank)) as [c Hlk].
    { pose proof (grown_length N h) as Hl. unfold size in Hl. lia. }
    assert (Hcount : count_at h (Z.to_nat rank) = c).
    { rewrite <- (count_at_grown N). unfold count_at. by rewrite Hlk. }
    assert (Hs : sum_counts (bumped rank (grown N h)) = sum_counts h + 1).
    { unfold bumped. rewrite (sum_counts_insert _ _ c) by done.
      rewrite sum_counts_grown.
      replace (count_at (grown N h) (Z.to_nat rank)) with c
        by (unfold count_at; by rewrite Hlk).
      rewrite Z.mod_small by lia. lia. }
    rewrite IH; [rewrite Hs; cbn [length]; lia|done| |].
    + by apply uint32_bumped.
    + intros i. rewrite count_at_recorded by done.
      pose proof (Hocc i) as Hi. cbn [occurrences foldr fst] in Hi.
      fold (occurrences i obs) in Hi.
      destruct (decide (i = Z.to_nat rank)) as [->|Hne].
      * rewrite decide_True in Hi by done. rewrite Z.mod_small by lia. lia.
      * rewrite decide_False in Hi by done. done.
Qed.

Lemma np_sum_after_zeros_nowrap obs k :
  Forall valid_obs obs ->
  (forall i, occurrences i obs < uint32_modulus) ->
  Z.of_nat (length obs) < uint64_modulus ->
  sum_counts (hist_after obs (replicate k 0)) = Z.of_nat (length obs)
  /\ np_sum (hist_after obs (replicate k 0)) = Z.of_nat (length obs).
Proof.
  intros Hv Hocc Hlen.
  assert (Hs : sum_counts (hist_after obs (replicate k 0)) = Z.of_nat (length obs)).
  { rewrite hist_after_sum_nowrap; try done.
    - rewrite sum_counts_zeros. lia.
    - apply uint32_zeros.
    - intros i. rewrite count_at_zeros. apply Hocc. }
  split; [done|]. rewrite np_sum_small; lia.
Qed.

(** C3, amended: after a [reset], a replay of valid observations in
    which every [add] returned, no rank occurs [2^32] times or more and
    fewer than [2^64] observations are made leaves a length that is the
    sum of the counts and the number of [add] calls. *)
Theorem len_counts_adds self obs :
  Forall valid_obs obs ->
  fst (Machine.add_all available obs (snd (reset self))) = Returned tt ->
  (forall i, occurrences i obs < uint32_modulus) ->
  Z.of_nat (length obs) < uint64_modulus ->
  __len__ (snd (Machine.add_all available obs (snd (reset self))))
  = sum_counts (histogram (snd (Machine.add_all available obs (snd (reset self)))))
  /\ __len__ (snd (Machine.add_all available obs (snd (reset self))))
     = Z.of_nat (length obs).
Proof.
  intros Hv Hret Hocc Hlen.
  rewrite (machine_add_all_returned available obs _ Hret).
  rewrite add_all_valid, reset_unfold by done.
  unfold __len__. cbn [snd histogram].
  destruct (np_sum_after_zeros_nowrap obs (length (histogram self)) Hv Hocc Hlen)
    as [Hs Hn].
  by rewrite Hs, Hn.
Qed.

(** C1, amended: for every state with [uint32] counts whose sum is
    below [2^64], the length is the sum of the counts, and [zscore] is
    [0.0] when that sum is zero and otherwise
    [(U - total * 0.5) / (total / 12.0) ** 0.5], in any float arithmetic;
    in exact arithmetic the power is the square root, so that [zscore]
    is [(U - total * 0.5) / sqrt (total / 12)]. *)
Theorem zscore_formula self :
  uint32_array (histogram self) ->
  sum_counts (histogram self) < uint64_modulus ->
  __len__ self = sum_counts (histogram self)
  /\ zscore self =
       (if sum_counts (histogram self) =? 0 then lit_0_0
        else fdiv (fsub (U self)
                        (fmul (of_int (sum_counts (histogram self))) lit_0_5))
                  (fpow_0_5 (fdiv (of_int (sum_counts (histogram self)))
                                  lit_12_0)))
  /\ (forall u : R,
        zscore (mkAcc (histogram self) u) =
          if sum_counts (histogram self) =? 0 then 0%R
          else ((u - IZR (sum_counts (histogram self)) * (1 / 2))
                / sqrt (IZR (sum_counts (histogram self)) / 12))%R).
Proof.
  intros Hh Hlt.
  pose proof (sum_counts_nonneg _ (uint32_nonneg _ Hh)) as Hnn.
  assert (Hsum : np_sum (histogram self) = sum_counts (histogram self)).
  { apply np_sum_small. lia. }
  split; [done|]. split.
  - unfold zscore. rewrite Hsum.
    by destruct (sum_counts (histogram self) =? 0).
  - intros u. unfold zscore. cbn [histogram U]. rewrite Hsum.
    destruct (sum_counts (histogram self) =? 0); [done|].
    cbn [of_int lit_0_5 lit_12_0 fsub fmul fdiv fpow_0_5 exact].
    by rewrite real_pow_0_5_sqrt.
Qed.

End Limits.

(** ** The fixed-scale formula and the accumulator *)

Section BatchAndAccumulator.

Variable available : Z -> bool.
Local Open Scope R_scope.


End BatchAndAccumulator.

(** ** The limits at concrete inputs *)

Section LimitScenarios.

Lemma sum_counts_replicate (n : nat) (c : Z) :
  sum_counts (replicate n c) = Z.of_nat n * c.
Proof.
  induction n as [|n IH]; [done|].
  change (sum_counts (replicate (S n) c)) with (c + sum_counts (replicate n c)).
  rewrite IH. lia.
Qed.

Lemma sum_counts_hist_full : sum_counts hist_full = 18446744073709551616.
Proof.
  unfold hist_full. rewrite sum_counts_app, sum_counts_replicate, Z2Nat.id by done.
  done.
Qed.

Lemma uint32_hist_full : uint32_array hist_full.
Proof.
  unfold hist_full. apply Forall_app. split.
  - apply Forall_replicate. unfold uint32_modulus. lia.
  - repeat constructor; unfold uint32_modulus; lia.
Qed.

(** C1, as stated, fails twice.  At the histogram [[0; 7513]] with
    [U = 11269.5] (rank 1 out of 1, 7513 times) the code divides by
    [(7513 / 12.0) ** 0.5], which the C library's [pow] returns one unit
    in the last place below the square root, and answers
    [0x1.2c4287fb903ccp+8] where the formula with [sqrt] gives
    [0x1.2c4287fb903cbp+8].  At a histogram with [uint32] counts that add
    up to [2^64] the code sees a total of 0 and answers [0.0], where the
    formula at [total = 2^64], [U = 0.0] is negative. *)
Lemma zscore_not_sqrt_formula :
  (@zscore float (binary64_with_pow glibc_pow_0_5)
     (mkAcc [0; 7513] 11269.5%float)
   = 0x1.2c4287fb903ccp+8%float
   /\ PrimFloat.div
        (PrimFloat.sub 11269.5%float (PrimFloat.mul (float_of_Z 7513) 0.5%float))
        (PrimFloat.sqrt (PrimFloat.div (float_of_Z 7513) 12%float))
      = 0x1.2c4287fb903cbp+8%float)
  /\ (uint32_array hist_full
      /\ sum_counts hist_full = 18446744073709551616
      /\ zscore (mkAcc hist_full 0%float) = 0%float
      /\ PrimFloat.ltb
           (PrimFloat.div
              (PrimFloat.sub 0%float
                 (PrimFloat.mul (float_of_Z 18446744073709551616) 0.5%float))
              (PrimFloat.sqrt
                 (PrimFloat.div (float_of_Z 18446744073709551616) 12%float)))
           0%float
         = true).
Proof.
  split; [split; by vm_compute|].
  split; [apply uint32_hist_full|]. split; [apply sum_counts_hist_full|].
  split; [|by vm_compute].
  unfold zscore. cbn [histogram]. rewrite np_sum_mod, sum_counts_hist_full. done.
Qed.

Lemma zscore_formula_witness :
  zscore (mkAcc [2; 0; 1] 2.5%float) =
    (if sum_counts (histogram (mkAcc [2; 0; 1] 2.5%float)) =? 0 then lit_0_0
     else fdiv (fsub (U (mkAcc [2; 0; 1] 2.5%float))
                     (fmul (of_int (sum_counts (histogram (mkAcc [2; 0; 1] 2.5%float))))
                           lit_0_5))
               (fpow_0_5 (fdiv (of_int (sum_counts
                                          (histogram (mkAcc [2; 0; 1] 2.5%float))))
                               lit_12_0))).
Proof.
  refine (proj1 (proj2 (zscore_formula (mkAcc [2; 0; 1] 2.5%float) _ _))).
  - repeat constructor; unfold uint32_modulus; lia.
  - reflexivity.
Defined.

(** C2, as stated, fails: on a machine that grants every array NumPy
    accepts, [add 0 (2^62)] and [add (2^62) (2^62)] on a new accumulator
    pass the rank check and raise the [ValueError] of [np.zeros] for an
    array too big, leaving the state as it was. *)
Lemma add_in_range_raises :
  1 <= 4611686018427387904
  /\ fst (Machine.add generous 0 4611686018427387904 (empty_accumulator (F:=float) 0))
     = Raised ValueError_array_too_big
  /\ fst (Machine.add generous 4611686018427387904 4611686018427387904
            (empty_accumulator (F:=float) 0))
     = Raised ValueError_array_too_big
  /\ snd (Machine.add generous 4611686018427387904 4611686018427387904
            (empty_accumulator (F:=float) 0))
     = empty_accumulator 0.
Proof. repeat split; by vm_compute. Qed.

Lemma add_invalid_rank_iff_witness :
  fst (Machine.add small_machine 5 5 (mkAcc [0; 1; 2] 0%float)) = Returned tt
  <-> 5 < size (histogram (mkAcc [0; 1; 2] 0%float))
      \/ (5 + 1 < numpy_max_cells /\ small_machine (5 + 1) = true).
Proof.
  refine (proj1 (proj2 (proj2 (proj2 (proj2 (proj2
    (add_invalid_rank_iff small_machine (mkAcc [0; 1; 2] 0%float) 7 5 _))))))).
  lia.
Defined.

Lemma occurrences_app i (obs1 obs2 : list (Z * Z)) :
  occurrences i (obs1 ++ obs2) = occurrences i obs1 + occurrences i obs2.
Proof.
  induction obs1 as [|o obs1 IH]; [done|].
  cbn [app occurrences foldr].
  fold (occurrences i (obs1 ++ obs2)) (occurrences i obs1).
  rewrite IH. destruct (decide _); lia.
Qed.

Lemma occurrences_replicate i (k : nat) (o : Z * Z) :
  occurrences i (replicate k o)
  = if decide (Z.to_nat (fst o) = i) then Z.of_nat k else 0.
Proof.
  induction k as [|k IH].
  - by destruct (decide _).
  - cbn [replicate occurrences foldr]. fold (occurrences i (replicate k o)).
    rewrite IH. destruct (decide _); lia.
Qed.

Lemma occurrences_ranks_each i (k : nat) (M : Z) (m : nat) : forall s : nat,
  occurrences i (ranks_each k M s m)
  = if decide (s <= i < s + m)%nat then Z.of_nat k else 0.
Proof.
  induction m as [|m IH]; intros s; cbn [ranks_each].
  - destruct (decide _); [lia|done].
  - rewrite occurrences_app, occurrences_replicate, IH. cbn [fst].
    rewrite Nat2Z.id.
    destruct (decide (s = i)); destruct (decide (S s <= i < S s + m)%nat);
      destruct (decide (s <= i < s + S m)%nat); lia.
Qed.

Lemma ranks_each_length (k : nat) (M : Z) (m : nat) : forall s : nat,
  length (ranks_each k M s m) = (k * m)%nat.
Proof.
  induction m as [|m IH]; intros s; cbn [ranks_each].
  - cbn. lia.
  - rewrite length_app, length_replicate, IH. lia.
Qed.

Lemma ranks_each_Forall (P : Z * Z -> Prop) (k : nat) (M : Z) (m : nat) :
  forall s : nat,
  (forall j : nat, (s <= j < s + m)%nat -> P (Z.of_nat j, M)) ->
  Forall P (ranks_each k M s m).
Proof.
  induction m as [|m IH]; intros s HP; cbn [ranks_each].
  - constructor.
  - apply Forall_app. split.
    + apply Forall_replicate. apply HP. lia.
    + apply IH. intros j Hj. apply HP. lia.
Qed.

Lemma obs_filling_Forall (P : Z * Z -> Prop) :
  (forall r, 0 <= r <= 4294967297 -> P (r, 4294967297)) ->
  Forall P obs_filling.
Proof.
  intros HP. unfold obs_filling. apply Forall_app. split.
  - apply ranks_each_Forall. intros j Hj. apply HP. lia.
  - constructor; [|constructor]. apply HP. lia.
Qed.

Lemma obs_filling_length : Z.of_nat (length obs_filling) = 18446744073709551616.
Proof.
  unfold obs_filling. rewrite length_app, ranks_each_length. cbn [length].
  rewrite Nat2Z.inj_add, Nat2Z.inj_mul, !Z2Nat.id by done. done.
Qed.

Lemma obs_filling_occurrences i : occurrences i obs_filling < uint32_modulus.
Proof.
  unfold obs_filling. rewrite occurrences_app, occurrences_ranks_each.
  cbn [occurrences foldr fst]. rewrite Z2Nat.id by done.
  unfold uint32_modulus.
  destruct (decide (0 <= i < 0 + Z.to_nat 4294967297)%nat);
    destruct (decide (Z.to_nat 4294967297 = i)); lia.
Qed.

(** C3, as stated, fails twice on a machine that grants every array:
    [2^32] observations of rank 0, replayed after a reset, all return
    and leave the length 0; and [2^64] observations in which no rank
    occurs [2^32] times all return and leave the length 0. *)
Lemma len_not_number_of_adds :
  (Forall valid_obs (obs_wrapping 0)
   /\ Z.of_nat (length (obs_wrapping 0)) = 4294967296
   /\ fst (Machine.add_all generous (obs_wrapping 0)
             (snd (reset (empty_accumulator (F:=float) 2)))) = Returned tt
   /\ __len__ (snd (Machine.add_all generous (obs_wrapping 0)
                      (snd (reset (empty_accumulator (F:=float) 2))))) = 0)
  /\ (Forall valid_obs obs_filling
      /\ (forall i, occurrences i obs_filling < uint32_modulus)
      /\ Z.of_nat (length obs_filling) = 18446744073709551616
      /\ fst (Machine.add_all generous obs_filling
                (snd (reset (empty_accumulator (F:=float) 0)))) = Returned tt
      /\ __len__ (snd (Machine.add_all generous obs_filling
                         (snd (reset (empty_accumulator (F:=float) 0))))) = 0).
Proof.
  split.
  - destruct len_wraps_after_2_32_adds as (Hv & Hlen & Hret & Hzero).
    assert (Hsmall : Forall (fun o : Z * Z => snd o + 1 < numpy_max_cells)
                       (obs_wrapping 0)).
    { apply Forall_replicate. cbn [snd]. unfold numpy_max_cells. lia. }
    pose proof (machine_add_all_granted generous (obs_wrapping 0)
                  (snd (reset (empty_accumulator (F:=float) 2)))
                  (fun _ => eq_refl) Hsmall) as Hsame.
    rewrite Hsame. exact (conj Hv (conj Hlen (conj Hret Hzero))).
  - assert (Hv : Forall valid_obs obs_filling).
    { apply obs_filling_Forall. intros r Hr. unfold valid_obs. cbn [fst snd]. lia. }
    split; [done|]. split; [apply obs_filling_occurrences|].
    split; [apply obs_filling_length|].
    assert (Hsmall : Forall (fun o : Z * Z => snd o + 1 < numpy_max_cells)
                       obs_filling).
    { apply obs_filling_Forall. intros r Hr. cbn [snd]. unfold numpy_max_cells. lia. }
    pose proof (machine_add_all_granted generous obs_filling
                  (snd (reset (empty_accumulator (F:=float) 0)))
                  (fun _ => eq_refl) Hsmall) as Hsame.
    rewrite Hsame.
    pose proof (add_all_valid obs_filling
                  (snd (reset (empty_accumulator (F:=float) 0))) Hv) as Hreplay.
    rewrite Hreplay, reset_unfold. split; [reflexivity|].
    unfold __len__. cbn [snd histogram].
    rewrite np_sum_mod, hist_after_sum_nowrap.
    + rewrite sum_counts_zeros, obs_filling_length. reflexivity.
    + exact Hv.
    + apply uint32_zeros.
    + intros i. rewrite count_at_zeros. apply obs_filling_occurrences.
Qed.

Lemma len_counts_adds_witness :
  __len__ (snd (Machine.add_all small_machine [(0, 1); (2, 2); (2, 3)]
                  (snd (reset (mkAcc [5; 0] 2%float)))))
  = Z.of_nat (length [(0, 1); (2, 2); (2, 3)]).
Proof.
  refine (proj2 (len_counts_adds small_machine (mkAcc [5; 0] 2%float)
                   [(0, 1); (2, 2); (2, 3)] _ _ _ _)).
  - repeat constructor; simpl; lia.
  - reflexivity.
  - intros i. cbn [occurrences foldr fst]. unfold uint32_modulus.
    repeat destruct (decide _); lia.
  - reflexivity.
Defined.



End LimitScenarios.
